(** * MAVE: cleaning of Amazon product metadata

    A shallow embedding of [clean_amazon_product_metadata_main.py]: the join
    of raw records with attribute labels, the flattening of the text sources
    into paragraphs, the per-paragraph cleaning chain with its title gate and
    the de-duplication by identifier, followed by the properties of the
    specification that were checked against it. *)

From Stdlib Require Import ZArith NArith QArith List Ascii String Bool Lia.
From stdpp Require Import base option list gmap.
Import ListNotations.

Close Scope Q_scope.
Local Open Scope list_scope.

(** ** Python strings

    A Python [str] is a sequence of Unicode code points; a code point is kept
    as its number in [N].  Lone surrogates (U+D800..U+DFFF) are legal members
    of a [str] (json.loads produces them from escapes, [chr] accepts them),
    which is what the two "unicode clean" steps of the cleaner are about. *)

Definition pystr := list N.

(** The ASCII literal of the source, as a [pystr]. *)
Definition str (s : string) : pystr :=
  List.map N_of_ascii (list_ascii_of_string s).

(** [str.isspace] on one code point (CPython's [_PyUnicode_IsWhitespace]). *)
Definition isspace (c : N) : bool :=
  ((0x09 <=? c) && (c <=? 0x0D) || (0x1C <=? c) && (c <=? 0x20)
   || (c =? 0x85) || (c =? 0xA0) || (c =? 0x1680)
   || (0x2000 <=? c) && (c <=? 0x200A)
   || (c =? 0x2028) || (c =? 0x2029) || (c =? 0x202F) || (c =? 0x205F)
   || (c =? 0x3000))%N.

Fixpoint lstrip (s : pystr) : pystr :=
  match s with
  | c :: s' => if isspace c then lstrip s' else s
  | [] => []
  end.

Definition rstrip (s : pystr) : pystr := rev (lstrip (rev s)).

(** [s.strip()] *)
Definition strip (s : pystr) : pystr := rstrip (lstrip s).

(** [s.split()]: the scanner keeps the token read so far in [cur] and emits it
    at the next whitespace or at the end of the text. *)
Fixpoint split_from (cur s : pystr) : list pystr :=
  match s with
  | [] => match cur with [] => [] | _ :: _ => [cur] end
  | c :: s' =>
      if isspace c
      then match cur with
           | [] => split_from [] s'
           | _ :: _ => cur :: split_from [] s'
           end
      else split_from (cur ++ [c]) s'
  end.

Definition split (s : pystr) : list pystr := split_from [] s.

(** [sep.join(l)] *)
Fixpoint join (sep : pystr) (l : list pystr) : pystr :=
  match l with
  | [] => []
  | [x] => x
  | x :: l' => x ++ sep ++ join sep l'
  end.

(** [s.startswith(prefix)] *)
Fixpoint startswith (s prefix : pystr) : bool :=
  match prefix, s with
  | [], _ => true
  | p :: ps, c :: cs => (p =? c)%N && startswith cs ps
  | _ :: _, [] => false
  end.

(** [sub in s] *)
Fixpoint contains (sub s : pystr) : bool :=
  startswith s sub
  || match s with
     | [] => false
     | _ :: s' => contains sub s'
     end.

(** [len(re.findall(c, s))] for a one-character pattern [c]. *)
Definition count_char (c : N) (s : pystr) : Z :=
  Z.of_nat (List.length (List.filter (N.eqb c) s)).

(** [' '.join(s.split())], the "whitespace clean" of the cleaner. *)
Definition ws_normalize (s : pystr) : pystr := join (str " ") (split s).

(** [s.encode('utf-8', 'ignore').decode('utf-8')]: the only code points of a
    [str] without a UTF-8 encoding are the surrogates; the [ignore] handler
    leaves them out and decoding gives back every other code point
    ([utf8_decode_encode_ignore] below, on the bytes). *)
Definition is_surrogate (c : N) : bool := ((0xD800 <=? c) && (c <=? 0xDFFF))%N.

Definition utf8_ignore_roundtrip (s : pystr) : pystr :=
  List.filter (fun c => negb (is_surrogate c)) s.

(** ** Exceptions *)

Inductive exn : Set :=
| TypeError
| AttributeError
| IndexError
| ZeroDivisionError
| UnicodeDecodeError.

Inductive result (A : Type) : Type :=
| Ok (a : A)
| Raise (e : exn).
Arguments Ok {A} a.
Arguments Raise {A} e.

#[global] Instance result_ret : MRet result := fun A a => Ok a.

#[global] Instance result_bind : MBind result := fun A B k r =>
  match r with
  | Ok a => k a
  | Raise e => Raise e
  end.

(** *** UTF-8 on the bytes *)

(** The UTF-8 bytes of one code point; none for a surrogate, which the
    [ignore] error handler skips. *)
Definition utf8_encode_char (c : N) : list N :=
  (if c <? 0x80 then [c]
   else if c <? 0x800 then [0xC0 + c / 64; 0x80 + c mod 64]
   else if c <? 0x10000 then
     if is_surrogate c then []
     else [0xE0 + c / 4096; 0x80 + (c / 64) mod 64; 0x80 + c mod 64]
   else [0xF0 + c / 262144; 0x80 + (c / 4096) mod 64;
         0x80 + (c / 64) mod 64; 0x80 + c mod 64])%N.

(** [s.encode('utf-8', 'ignore')] *)
Definition utf8_encode_ignore (s : pystr) : list N :=
  flat_map utf8_encode_char s.

Definition continuation (b : N) : bool := ((0x80 <=? b) && (b <=? 0xBF))%N.

(** [bs.decode('utf-8')]: strict, no overlong form, no surrogate, nothing
    above U+10FFFF. *)
Fixpoint utf8_decode (bs : list N) : result pystr :=
  match bs with
  | [] => Ok []
  | b1 :: bs1 =>
      if (b1 <? 0x80)%N then s ← utf8_decode bs1; Ok (b1 :: s)
      else if (b1 <? 0xC0)%N then Raise UnicodeDecodeError
      else if (b1 <? 0xE0)%N then
        match bs1 with
        | b2 :: bs2 =>
            let c := ((b1 - 0xC0) * 64 + (b2 - 0x80))%N in
            if continuation b2 && (0x80 <=? c)%N
            then s ← utf8_decode bs2; Ok (c :: s)
            else Raise UnicodeDecodeError
        | _ => Raise UnicodeDecodeError
        end
      else if (b1 <? 0xF0)%N then
        match bs1 with
        | b2 :: b3 :: bs3 =>
            let c := ((b1 - 0xE0) * 4096 + (b2 - 0x80) * 64 + (b3 - 0x80))%N in
            if continuation b2 && continuation b3 && (0x800 <=? c)%N
               && negb (is_surrogate c)
            then s ← utf8_decode bs3; Ok (c :: s)
            else Raise UnicodeDecodeError
        | _ => Raise UnicodeDecodeError
        end
      else if (b1 <? 0xF8)%N then
        match bs1 with
        | b2 :: b3 :: b4 :: bs4 =>
            let c := ((b1 - 0xF0) * 262144 + (b2 - 0x80) * 4096
                      + (b3 - 0x80) * 64 + (b4 - 0x80))%N in
            if continuation b2 && continuation b3 && continuation b4
               && (0x10000 <=? c)%N && (c <=? 0x10FFFF)%N
            then s ← utf8_decode bs4; Ok (c :: s)
            else Raise UnicodeDecodeError
        | _ => Raise UnicodeDecodeError
        end
      else Raise UnicodeDecodeError
  end.

(** [a / b] on two [int]s.  Python rounds the exact quotient to the nearest
    double; the model keeps the exact quotient.  Against the literal [0.3]
    the two give the same answer whenever [0 <= a <= b < 2^52], far beyond
    the number of tokens a text can hold: [truediv_double_agrees] below. *)
Definition truediv (a b : Z) : result Q :=
  if (b =? 0)%Z then Raise ZeroDivisionError
  else Ok (inject_Z a / inject_Z b)%Q.

(** [x > y] on the quotients. *)
Definition Qgtb (x y : Q) : bool := negb (Qle_bool x y).

(** *** The quotient as a double

    The integer nearest to [x / y] for [y > 0], halves going to the even
    neighbour. *)
Definition round_half_even (x y : Z) : Z :=
  let q := (x / y)%Z in
  let r := (x mod y)%Z in
  if (2 * r <? y)%Z then q
  else if (y <? 2 * r)%Z then (q + 1)%Z
  else if Z.even q then q else (q + 1)%Z.

(** The exponent [e] with [2^e <= a/b < 2^(e+1)], for [0 < a <= b]. *)
Definition binade (a b : Z) : Z :=
  let k := (Z.log2 b - Z.log2 a)%Z in
  if (a * 2 ^ k <? b)%Z then (- k - 1)%Z else (- k)%Z.

(** The binary64 value of [a / b] for [0 <= a <= b]: the quotient rounded
    to 53 significant bits. *)
Definition double_truediv (a b : Z) : Q :=
  if (a =? 0)%Z then 0%Q
  else
    let scale := (2 ^ (52 - binade a b))%Z in
    (inject_Z (round_half_even (a * scale) b) / inject_Z scale)%Q.

(** The literal [0.3], the double nearest to 3/10. *)
Definition double_0_3 : Q := (5404319552844595 # 18014398509481984)%Q.

(** ** The detectors *)

(** The test of one token in [is_css]. *)
Definition is_css_element (token : pystr) : bool :=
  existsb (startswith token) [str "."; str "#"; str "div"]
  || contains (str "px") token
  || (1 <? count_char (N_of_ascii "-") token)%Z.

(** The loop of [is_css]: the state is [(num_tokens, num_css_elements)]. *)
Definition count_tokens (tokens : list pystr) : Z * Z :=
  fold_left
    (fun '(num_tokens, num_css_elements) token =>
       let num_tokens := (num_tokens + 1)%Z in
       if is_css_element token
       then (num_tokens, (num_css_elements + 1)%Z)
       else (num_tokens, num_css_elements))
    tokens (0, 0)%Z.

Definition is_css (text : pystr) : result bool :=
  let '(num_tokens, num_css_elements) := count_tokens (split text) in
  ratio ← truediv num_css_elements num_tokens;
  Ok (Qgtb ratio (3 # 10) && (20 <? num_css_elements)%Z).

Definition is_html (text : pystr) : bool :=
  if contains (str "<a href") text then true
  else if contains (str "javascript:") text then true
  else if contains (str "background-color:") text then true
  else if contains (str "background-image:") text then true
  else if contains (str " li:") text then true
  else if contains (str ".aloha") text then true
  else false.

(** ** JSON values

    What [json.loads] returns.  An object is a Python [dict] with [str] keys,
    kept as a finite map. *)

#[warnings="-register-all"]
Inductive json : Type :=
| JNull
| JBool (b : bool)
| JInt (n : Z)
| JFloat (q : Q)
| JStr (s : pystr)
| JList (l : list json)
| JDict (d : gmap pystr json).

(** [_JsonObject] *)
Abbreviation JsonObject := (gmap pystr json).

(** [d.get(key, default)] *)
Definition dict_get {V} (d : gmap pystr V) (key : pystr) (dflt : V) : V :=
  default dflt (d !! key).

(** [{**d, **upd}]: the entries of [upd] overwrite those of [d]. *)
Definition dict_update {V} (d upd : gmap pystr V) : gmap pystr V := upd ∪ d.

(** [copy.deepcopy]: values carry no identity here, the copy is the value. *)
Definition deepcopy {A} (x : A) : A := x.

Definition _ASIN : pystr := str "asin".
Definition _TITLE : pystr := str "title".
Definition _DESCRIPTION : pystr := str "description".
Definition _FEATURE : pystr := str "feature".
Definition _PRICE : pystr := str "price".
Definition _BRAND : pystr := str "brand".
Definition _SOURCES : list pystr :=
  [_TITLE; _DESCRIPTION; _FEATURE; _PRICE; _BRAND].

(** A paragraph, [dict(text=..., source=...)]. *)
Record Paragraph : Type := { text : pystr; source : pystr }.

Definition Paragraph_json (p : Paragraph) : json :=
  JDict {[ str "text" := JStr (text p); str "source" := JStr (source p) ]}.

(** ** JoinWithLabelsFn *)

Module JoinWithLabelsFn.

(** A generator that yields at most once is the list of what it yields.
    [labels_by_id.get(key)] hashes its key: a list or a dict raises
    [TypeError], any other value that is not a [str] equals no key of a
    [Mapping[str, _]]. *)
Definition process (json_example : JsonObject)
    (labels_by_id : gmap pystr JsonObject)
  : result (list (JsonObject * JsonObject)) :=
  match dict_get json_example _ASIN (JStr (str "")) with
  | JList _ | JDict _ => Raise TypeError
  | JStr asin =>
      match labels_by_id !! asin with
      | None => Ok []
      | Some labels =>
          if bool_decide (size labels = 0%nat) then Ok []
          else Ok [(json_example, deepcopy labels)]
      end
  | JNull | JBool _ | JInt _ | JFloat _ => Ok []
  end.

End JoinWithLabelsFn.

(** ** ConvertSourcesFn *)

Module ConvertSourcesFn.

(** The list comprehension of [_create_paragraphs]; [text.strip()] on a
    value that is not a [str] raises [AttributeError]. *)
Fixpoint paragraphs_of (source : pystr) (texts : list json)
  : result (list Paragraph) :=
  match texts with
  | [] => Ok []
  | JStr text0 :: texts' =>
      paragraphs ← paragraphs_of source texts';
      Ok (if bool_decide (strip text0 = [])
          then paragraphs
          else {| text := strip text0; source := source |} :: paragraphs)
  | _ :: _ => Raise AttributeError
  end.

Definition _create_paragraphs (source : pystr) (json_example : JsonObject)
  : result (list Paragraph) :=
  let data := dict_get json_example source (JList []) in
  let texts :=
    match data with
    | JStr _ => [data]
    | JList l => l
    | _ => []
    end in
  paragraphs_of source texts.

(** [list(itertools.chain.from_iterable(... for source in sources))] *)
Fixpoint chain_sources (sources : list pystr) (json_example : JsonObject)
  : result (list Paragraph) :=
  match sources with
  | [] => Ok []
  | source :: sources' =>
      here ← _create_paragraphs source json_example;
      rest ← chain_sources sources' json_example;
      Ok (here ++ rest)
  end.

Definition process (element : JsonObject * JsonObject)
  : result (list JsonObject) :=
  let '(json_example, labels) := element in
  paragraphs ← chain_sources _SOURCES json_example;
  Ok [dict_update
        {[ str "paragraphs" := JList (List.map Paragraph_json paragraphs) ]}
        (deepcopy labels)].

End ConvertSourcesFn.

(** ** The parse tree of Beautiful Soup

    [bs4.BeautifulSoup(html, 'html.parser')] is a tree of tags and strings.
    [NavigableString] and [CData] are the two kinds of string that
    [stripped_strings] yields; comments, declarations, doctypes and
    processing instructions are strings of other classes, which it skips. *)

#[warnings="-register-all"]
Inductive node : Type :=
| Tag (name : pystr) (contents : list node)
| NavigableString (s : pystr)
| CData (s : pystr)
| Comment (s : pystr)
| Declaration (s : pystr)
| Doctype (s : pystr)
| ProcessingInstruction (s : pystr).

(** [for data in soup(names): data.decompose()]: every tag with one of the
    names leaves the tree, with all it contains. *)
Fixpoint decompose (names : list pystr) (n : node) : list node :=
  match n with
  | Tag name contents =>
      if bool_decide (name ∈ names) then []
      else [Tag name (flat_map (decompose names) contents)]
  | _ => [n]
  end.

(** The strings below a node, in document order. *)
Fixpoint strings (n : node) : list pystr :=
  match n with
  | Tag _ contents => flat_map strings contents
  | NavigableString s | CData s => [s]
  | _ => []
  end.

(** [soup.stripped_strings]: each string stripped, the empty ones left out. *)
Definition stripped_strings (soup : list node) : list pystr :=
  List.filter (fun s => negb (bool_decide (s = [])))
    (List.map strip (flat_map strings soup)).

(** The cleaned document, as [CleanParagraphsFn] yields it; its input is a
    dict of the same shape, built by [ConvertSourcesFn] from a label record
    with the fields [id], [category] and [attributes]. *)
Record Document : Type := {
  doc_id : pystr;
  doc_category : json;
  doc_paragraphs : list Paragraph;
  doc_attributes : json
}.

Section Markup.

(** The markup parser, [fun html => bs4.BeautifulSoup(html, 'html.parser')],
    is a library outside the repository; the cleaner is stated over it. *)
Variable BeautifulSoup : pystr -> list node.

Definition remove_tags (html : pystr) : pystr :=
  let soup := BeautifulSoup html in
  let soup := flat_map (decompose [str "style"; str "script"]) soup in
  join (str " ") (stripped_strings soup).

End Markup.

(** ** CleanParagraphsFn *)

Module CleanParagraphsFn.
Section Process.

Variable BeautifulSoup : pystr -> list node.

(** The body of the loop of [process] for one paragraph: [None] where the
    source says [continue], the appended paragraph otherwise.  The counters
    are write-only and left out. *)
Definition clean_paragraph (paragraph : Paragraph)
  : result (option Paragraph) :=
  let text0 := text paragraph in
  if bool_decide (source paragraph = str "title")
     && contains (str "getTime") text0
  then Ok None
  else
    let text_recovered := utf8_ignore_roundtrip text0 in
    let text_html_cleaned := remove_tags BeautifulSoup text_recovered in
    let text_space_cleaned := ws_normalize text_html_cleaned in
    if bool_decide (text_space_cleaned = []) then Ok None
    else if is_html text_space_cleaned then Ok None
    else
      css ← is_css text_space_cleaned;
      if css : bool then Ok None
      else
        let text_space_cleaned_recovered :=
          utf8_ignore_roundtrip text_space_cleaned in
        Ok (Some {| text := text_space_cleaned_recovered;
                    source := source paragraph |}).

Fixpoint clean_paragraphs (paragraphs : list Paragraph)
  : result (list Paragraph) :=
  match paragraphs with
  | [] => Ok []
  | paragraph :: paragraphs' =>
      cleaned ← clean_paragraph paragraph;
      rest ← clean_paragraphs paragraphs';
      Ok (match cleaned with
          | Some p => p :: rest
          | None => rest
          end)
  end.

(** The [for ... else] over the cleaned paragraphs. *)
Definition has_title (paragraphs : list Paragraph) : bool :=
  existsb (fun p => bool_decide (source p = str "title")) paragraphs.

Definition process (json_example : Document) : result (list Document) :=
  paragraphs ← clean_paragraphs (doc_paragraphs json_example);
  if has_title paragraphs
  then Ok [{| doc_id := doc_id json_example;
              doc_category := doc_category json_example;
              doc_paragraphs := paragraphs;
              doc_attributes := doc_attributes json_example |}]
  else Ok [].

End Process.
End CleanParagraphsFn.

(** ** GroupByASIN and DedupeASIN *)

Section Dedupe.

Context {A K : Type} `{Countable K} (key : A -> K).

(** [beam.GroupBy(key)]: one group for each key, holding the elements with
    that key in the order in which they were supplied. *)
Definition GroupBy (elements : list A) : gmap K (list A) :=
  fold_left
    (fun groups x => <[key x := default [] (groups !! key x) ++ [x]]> groups)
    elements ∅.

(** [lambda x: list(x[1])[0]] *)
Definition first_of_group (x : K * list A) : result A :=
  match snd x with
  | a :: _ => Ok a
  | [] => Raise IndexError
  end.

Definition DedupeASIN (elements : list A) : result (list A) :=
  mapM first_of_group (map_to_list (GroupBy elements)).

End Dedupe.

(** ** The counters of CleanParagraphsFn

    [__init__] creates ten named Beam counters; [process] increments them as
    it goes.  A state of the counters gives each its value. *)

Inductive counter : Set :=
| _num_paragraph
| _unformatted_title
| _unicode_issue_before_css
| _html_cleaned
| _whitespace_removed
| _html_after_clean
| _css_removed
| _unicode_issue_after_clean
| _no_title
| _num_output_documents.

#[global] Instance counter_eq_dec : EqDecision counter.
Proof. solve_decision. Defined.

Definition Metrics : Type := counter -> nat.

(** The counters as [__init__] leaves them. *)
Definition __init__ : Metrics := fun _ => 0%nat.

(** [counter.inc()] *)
Definition inc (k : counter) (m : Metrics) : Metrics :=
  fun k' => if decide (k = k') then S (m k') else m k'.

Module CleanParagraphsFn_counting.
Section Process.

Variable BeautifulSoup : pystr -> list node.

(** The body of the loop of [process], counters included. *)
Definition clean_paragraph (m : Metrics) (paragraph : Paragraph)
  : result (Metrics * option Paragraph) :=
  let m := inc _num_paragraph m in
  let text0 := text paragraph in
  if bool_decide (source paragraph = str "title")
     && contains (str "getTime") text0
  then Ok (inc _unformatted_title m, None)
  else
    let text_recovered := utf8_ignore_roundtrip text0 in
    let m :=
      if bool_decide (text_recovered <> text0)
      then inc _unicode_issue_before_css m else m in
    let text_html_cleaned := remove_tags BeautifulSoup text_recovered in
    let m :=
      if bool_decide (text_html_cleaned <> text_recovered)
      then inc _html_cleaned m else m in
    let text_space_cleaned := ws_normalize text_html_cleaned in
    if bool_decide (text_space_cleaned = [])
    then Ok (inc _whitespace_removed m, None)
    else if is_html text_space_cleaned
    then Ok (inc _html_after_clean m, None)
    else
      css ← is_css text_space_cleaned;
      if css : bool then Ok (inc _css_removed m, None)
      else
        let text_space_cleaned_recovered :=
          utf8_ignore_roundtrip text_space_cleaned in
        let m :=
          if bool_decide (text_space_cleaned_recovered <> text_space_cleaned)
          then inc _unicode_issue_after_clean m else m in
        Ok (m, Some {| text := text_space_cleaned_recovered;
                       source := source paragraph |}).

Fixpoint clean_paragraphs (m : Metrics) (paragraphs : list Paragraph)
  : result (Metrics * list Paragraph) :=
  match paragraphs with
  | [] => Ok (m, [])
  | paragraph :: paragraphs' =>
      '(m, cleaned) ← clean_paragraph m paragraph;
      '(m, rest) ← clean_paragraphs m paragraphs';
      Ok (m, match cleaned with
             | Some p => p :: rest
             | None => rest
             end)
  end.

Definition process (m : Metrics) (json_example : Document)
  : result (Metrics * list Document) :=
  '(m, paragraphs) ← clean_paragraphs m (doc_paragraphs json_example);
  if CleanParagraphsFn.has_title paragraphs
  then Ok (inc _num_output_documents m,
           [{| doc_id := doc_id json_example;
               doc_category := doc_category json_example;
               doc_paragraphs := paragraphs;
               doc_attributes := doc_attributes json_example |}])
  else Ok (inc _no_title m, []).

End Process.
End CleanParagraphsFn_counting.

(** ** A model of the markup parser

    Beautiful Soup drives Python's [html.parser.HTMLParser] (with
    [convert_charrefs=False]) and builds the tree from its callbacks.  The
    model follows [HTMLParser.goahead] and the handlers of
    [BeautifulSoupHTMLParser] on a fragment of the input language on which
    their behaviour is fixed: text, numeric and named character references
    closed by a character that cannot continue them, and tags without
    attributes, [<name>], [<name/>] and [</name>], with the raw-text content
    of [<script>] and [<style>].  On any other input [soup_of] is [None]; the
    statements that use the model name an input of the fragment. *)

Module HtmlParser.

Inductive event : Type :=
| Data (s : pystr)
| StartTag (name : pystr)
| StartEndTag (name : pystr)
| EndTag (name : pystr).

Definition is_letter (c : N) : bool :=
  ((65 <=? c) && (c <=? 90) || (97 <=? c) && (c <=? 122))%N.
Definition is_digit (c : N) : bool := ((48 <=? c) && (c <=? 57))%N.
Definition is_alnum (c : N) : bool := is_letter c || is_digit c.
Definition is_hexdigit (c : N) : bool :=
  (is_digit c || (65 <=? c) && (c <=? 70) || (97 <=? c) && (c <=? 102))%N.
Definition lower (c : N) : N :=
  if ((65 <=? c) && (c <=? 90))%N then (c + 32)%N else c.

Definition digit_value (c : N) : N :=
  if is_digit c then (c - 48)%N
  else if (97 <=? c)%N then (c - 87)%N else (c - 55)%N.

(** [int(digits, base)] *)
Definition int_of (base : N) (digits : pystr) : N :=
  fold_left (fun n c => (n * base + digit_value c)%N) digits 0%N.

(** The longest prefix whose characters satisfy [p], and what follows. *)
Fixpoint span (p : N -> bool) (s : pystr) : pystr * pystr :=
  match s with
  | c :: s' =>
      if p c then let '(a, b) := span p s' in (c :: a, b) else ([], s)
  | [] => ([], [])
  end.

(** [handle_charref]: below 128 the windows-1252 reading of the byte is the
    ASCII character; from 256 on the character is [chr] of the number,
    surrogates included, and U+FFFD where [chr] raises.  The references 128
    to 255 go through the windows-1252 table, which is not modelled. *)
Definition charref_data (n : N) : option pystr :=
  if (n <? 128)%N then Some [n]
  else if (n <? 256)%N then None
  else if (n <=? 0x10FFFF)%N then Some [n]
  else Some [0xFFFD%N].

(** [handle_entityref] on the four names every release maps alike. *)
Definition entityref_data (name : pystr) : option pystr :=
  if bool_decide (name = str "amp") then Some (str "&")
  else if bool_decide (name = str "lt") then Some (str "<")
  else if bool_decide (name = str "gt") then Some (str ">")
  else if bool_decide (name = str "quot") then Some [34%N]
  else None.

(** Tag names whose strings or white space the tree builder treats in a
    way of their own, and void names that only some releases know. *)
Definition unmodelled_tags : list pystr :=
  List.map str ["pre"; "textarea"; "template"; "basefont"; "bgsound";
                "command"; "frame"; "image"; "isindex"; "nextid";
                "spacer"; "keygen"; "menuitem"]%string.

Definition CDATA_CONTENT_ELEMENTS : list pystr := [str "script"; str "style"].

(** After [';'] the reference has swallowed its terminator. *)
Definition after_reference (rest : pystr) : pystr :=
  match rest with
  | 59%N :: rest' => rest'
  | _ => rest
  end.

(** One round of the loop of [goahead] outside raw text: the events, the
    raw-text element entered, and the input left. *)
Definition markup (s : pystr) : option (list event * option pystr * pystr) :=
  match s with
  | [] => None
  | 60%N :: s1 => (* '<' *)
      match s1 with
      | 47%N :: s2 => (* '</' *)
          let '(name, r) := span is_alnum s2 in
          let '(_, r2) := span (N.eqb 32) r in
          match name, r2 with
          | l :: _, 62%N :: rest =>
              if is_letter l
              then Some ([EndTag (List.map lower name)], None, rest)
              else None
          | _, _ => None
          end
      | 33%N :: _ | 63%N :: _ => None (* '<!' and '<?' *)
      | l :: _ =>
          if is_letter l then
            let '(name, r) := span is_alnum s1 in
            let '(tail, r2) := span (fun c => (c =? 32) || (c =? 47))%N r in
            let tag := List.map lower name in
            match r2 with
            | 62%N :: rest =>
                if bool_decide (tag ∈ unmodelled_tags) then None
                else if bool_decide (last tail = Some 47%N)
                then (if bool_decide (tag ∈ CDATA_CONTENT_ELEMENTS)
                      then None
                      else Some ([StartEndTag tag], None, rest))
                else if bool_decide (tag ∈ CDATA_CONTENT_ELEMENTS)
                then Some ([StartTag tag], Some tag, rest)
                else Some ([StartTag tag], None, rest)
            | _ => None
            end
          else Some ([Data (str "<")], None, s1)
      | [] => Some ([Data (str "<")], None, s1)
      end
  | 38%N :: s1 => (* '&' *)
      match s1 with
      | 35%N :: s2 => (* '&#' *)
          let '(base, digits, r) :=
            match s2 with
            | 120%N :: s3 | 88%N :: s3 =>
                let '(digits, r) := span is_hexdigit s3 in (16%N, digits, r)
            | _ => let '(digits, r) := span is_digit s2 in (10%N, digits, r)
            end in
          match digits, r with
          | _ :: _, t :: _ =>
              if is_hexdigit t then None
              else data ← charref_data (int_of base digits);
                   Some ([Data data], None, after_reference r)
          | _, _ => None
          end
      | l :: _ =>
          if is_letter l then
            let '(name, r) := span is_alnum s1 in
            match r with
            | t :: _ =>
                if ((t =? 45) || (t =? 46))%N then None
                else data ← entityref_data name;
                     Some ([Data data], None, after_reference r)
            | [] => None
            end
          else Some ([Data (str "&")], None, s1)
      | [] => Some ([Data (str "&")], None, s1)
      end
  | c :: s1 => Some ([Data [c]], None, s1)
  end.

(** One round inside the raw text of [elem]: the text up to its end tag. *)
Definition raw_text (elem s : pystr) : option (list event * pystr) :=
  let '(content, r) := span (fun c => negb (c =? 60)%N) s in
  let close := str "</" ++ elem ++ str ">" in
  if startswith r close
  then Some ((match content with [] => [] | _ :: _ => [Data content] end)
               ++ [EndTag elem], drop (List.length close) r)
  else None.

(** [feed] and [close]: every round consumes input, so the length of the
    input bounds the number of rounds. *)
Fixpoint goahead (rounds : nat) (cdata_elem : option pystr) (s : pystr)
  : option (list event) :=
  match s, cdata_elem with
  | [], None => Some []
  | _, _ =>
      match rounds with
      | O => None
      | S rounds' =>
          match cdata_elem with
          | Some elem =>
              '(events, rest) ← raw_text elem s;
              later ← goahead rounds' None rest;
              Some (events ++ later)
          | None =>
              '(events, mode, rest) ← markup s;
              later ← goahead rounds' mode rest;
              Some (events ++ later)
          end
      end
  end.

Definition events_of (html : pystr) : option (list event) :=
  goahead (S (List.length html)) None html.

(** *** The tree builder *)

(** The open tags, innermost first, each with the nodes it holds so far in
    reverse; the nodes of the document itself; the pending string. *)
Record builder : Type := {
  tagStack : list (pystr * list node);
  document : list node;
  current_data : pystr;
  already_closed_empty_element : list pystr
}.

Definition ASCII_SPACES : pystr := [32; 10; 9; 12; 13]%N.

Definition empty_element_tags : list pystr :=
  List.map str ["area"; "base"; "br"; "col"; "embed"; "hr"; "img"; "input";
                "link"; "meta"; "param"; "source"; "track"; "wbr"]%string.

Definition object_was_parsed (n : node) (b : builder) : builder :=
  match tagStack b with
  | (name, contents) :: outer =>
      {| tagStack := (name, n :: contents) :: outer;
         document := document b;
         current_data := current_data b;
         already_closed_empty_element := already_closed_empty_element b |}
  | [] =>
      {| tagStack := [];
         document := n :: document b;
         current_data := current_data b;
         already_closed_empty_element := already_closed_empty_element b |}
  end.

(** [endData]: the pending string becomes a node; a string of ASCII white
    space alone shrinks to one newline or one space. *)
Definition endData (b : builder) : builder :=
  match current_data b with
  | [] => b
  | _ :: _ =>
      let data := current_data b in
      let data :=
        if forallb (fun c => bool_decide (c ∈ ASCII_SPACES)) data
        then (if bool_decide (10%N ∈ data) then [10%N] else [32%N])
        else data in
      object_was_parsed (NavigableString data)
        {| tagStack := tagStack b;
           document := document b;
           current_data := [];
           already_closed_empty_element := already_closed_empty_element b |}
  end.

Definition pushTag (name : pystr) (b : builder) : builder :=
  {| tagStack := (name, []) :: tagStack b;
     document := document b;
     current_data := current_data b;
     already_closed_empty_element := already_closed_empty_element b |}.

Definition popTag (b : builder) : builder :=
  match tagStack b with
  | (name, contents) :: outer =>
      object_was_parsed (Tag name (rev contents))
        {| tagStack := outer;
           document := document b;
           current_data := current_data b;
           already_closed_empty_element := already_closed_empty_element b |}
  | [] => b
  end.

(** [_popToTag]: when a tag of that name is open, close the tags up to
    the innermost one of that name, itself included. *)
Fixpoint pop_through (name : pystr) (depth : nat) (b : builder) : builder :=
  match depth, tagStack b with
  | S depth', (top, _) :: _ =>
      if bool_decide (top = name) then popTag b
      else pop_through name depth' (popTag b)
  | _, _ => b
  end.

Definition _popToTag (name : pystr) (b : builder) : builder :=
  if bool_decide (name ∈ List.map fst (tagStack b))
  then pop_through name (List.length (tagStack b)) b
  else b.

Definition soup_handle_endtag (name : pystr) (b : builder) : builder :=
  _popToTag name (endData b).

Fixpoint remove_first (name : pystr) (l : list pystr) : list pystr :=
  match l with
  | [] => []
  | x :: l' => if bool_decide (x = name) then l' else x :: remove_first name l'
  end.

(** [BeautifulSoupHTMLParser.handle_endtag] with [check_already_closed]. *)
Definition handle_endtag (name : pystr) (b : builder) : builder :=
  if bool_decide (name ∈ already_closed_empty_element b)
  then {| tagStack := tagStack b;
          document := document b;
          current_data := current_data b;
          already_closed_empty_element :=
            remove_first name (already_closed_empty_element b) |}
  else soup_handle_endtag name b.

Definition handle_starttag (name : pystr) (handle_empty_element : bool)
    (b : builder) : builder :=
  let b := pushTag name (endData b) in
  if bool_decide (name ∈ empty_element_tags) && handle_empty_element
  then
    let b := soup_handle_endtag name b in
    {| tagStack := tagStack b;
       document := document b;
       current_data := current_data b;
       already_closed_empty_element :=
         already_closed_empty_element b ++ [name] |}
  else b.

Definition handle (b : builder) (e : event) : builder :=
  match e with
  | Data s =>
      {| tagStack := tagStack b;
         document := document b;
         current_data := current_data b ++ s;
         already_closed_empty_element := already_closed_empty_element b |}
  | StartTag name => handle_starttag name true b
  | StartEndTag name => handle_endtag name (handle_starttag name false b)
  | EndTag name => handle_endtag name b
  end.

(** The end of the document closes the pending string and the open tags. *)
Definition finish (b : builder) : list node :=
  let b := endData b in
  let b := Nat.iter (List.length (tagStack b)) popTag b in
  rev (document b).

Definition soup_of (html : pystr) : option (list node) :=
  events ← events_of html;
  Some (finish (fold_left handle events
          {| tagStack := []; document := []; current_data := [];
             already_closed_empty_element := [] |})).

(** The parser as a total function. *)
Definition BeautifulSoup (html : pystr) : list node :=
  default [] (soup_of html).

End HtmlParser.

(** ** The wording of the specification

    The definitions below follow the sentences of the specification, not the
    source; the theorems compare them with the functions above. *)

(** "A token counts as a CSS element if it starts with [.], [#], or [div],
    or contains the substring [px], or contains two or more hyphens." *)
Definition spec_css_element (token : pystr) : bool :=
  startswith token (str ".") || startswith token (str "#")
  || startswith token (str "div")
  || contains (str "px") token
  || (2 <=? List.length (List.filter (N.eqb (N_of_ascii "-")) token))%nat.

Definition css_element_count (text : pystr) : nat :=
  List.length (List.filter spec_css_element (split text)).

Definition total_token_count (text : pystr) : nat := List.length (split text).

(** "Drop the paragraph if [css_element_count / total_token_count > 0.3] and
    [css_element_count > 20]." *)
Definition spec_css_noise (text : pystr) : Prop :=
  (3 # 10 < inject_Z (Z.of_nat (css_element_count text))
            / inject_Z (Z.of_nat (total_token_count text)))%Q
  /\ (20 < css_element_count text)%nat.

(** A token, as [split] yields them: not empty and free of white space. *)
Definition is_token (t : pystr) : Prop :=
  t <> [] /\ Forall (fun c => isspace c = false) t.

(** A text that does not begin with white space. *)
Definition head_not_space (s : pystr) : Prop :=
  match s with
  | [] => True
  | c :: _ => isspace c = false
  end.

(** A piece of text as [stripped_strings] yields them: not empty, with
    no white space at either end. *)
Definition trimmed (s : pystr) : Prop :=
  s <> [] /\ head_not_space s /\ head_not_space (rev s).

(** Whether a tag with one of the names stands at the node or below it. *)
Fixpoint has_tag (names : list pystr) (n : node) : bool :=
  match n with
  | Tag name contents =>
      bool_decide (name ∈ names) || existsb (has_tag names) contents
  | _ => false
  end.

(** A text from which the final "unicode clean" removes nothing. *)
Definition encodable (s : pystr) : Prop :=
  Forall (fun c => is_surrogate c = false) s.

(** "The markup parse finds no tags." *)
Definition no_tags (soup : list node) : bool :=
  forallb (fun n => match n with Tag _ _ => false | _ => true end) soup.

(** The candidate texts of one source field: the string itself, the
    elements of a sequence, nothing for a field that is absent, null or of
    another type. *)
Definition candidates (json_example : JsonObject) (source : pystr)
  : list json :=
  match json_example !! source with
  | Some (JStr s) => [JStr s]
  | Some (JList l) => l
  | _ => []
  end.

Definition is_JStr (j : json) : bool :=
  match j with
  | JStr _ => true
  | _ => false
  end.

(** "For each candidate text, trim; if the trimmed result is non-empty, emit
    [Paragraph{text: trimmed, source: field_name}]", over the texts that are
    strings. *)
Definition spec_paragraphs (json_example : JsonObject) (source : pystr)
  : list Paragraph :=
  flat_map
    (fun j =>
       match j with
       | JStr s =>
           match strip s with
           | [] => []
           | _ :: _ => [{| text := strip s; source := source |}]
           end
       | _ => []
       end)
    (candidates json_example source).


(** The text on which the cleaner runs its checks: the paragraph after the
    first recoding, the markup stripping and the whitespace clean. *)
Definition checked_text (BeautifulSoup : pystr -> list node) (p : Paragraph)
  : pystr :=
  ws_normalize (remove_tags BeautifulSoup (utf8_ignore_roundtrip (text p))).

(** The elements with key [k], in the order supplied. *)
Definition group_of {A K : Type} `{EqDecision K} (key : A -> K) (k : K)
    (elements : list A) : list A :=
  List.filter (fun x => bool_decide (key x = k)) elements.

(** The dict that [ConvertSourcesFn] yields, read the way
    [CleanParagraphsFn.process] subscripts it; [None] where a key is missing
    or a value is not of the type of the data model. *)
Definition Paragraph_of_json (j : json) : option Paragraph :=
  match j with
  | JDict d =>
      match d !! str "text", d !! str "source" with
      | Some (JStr t), Some (JStr s) => Some {| text := t; source := s |}
      | _, _ => None
      end
  | _ => None
  end.

Definition Document_of_dict (json_example : JsonObject) : option Document :=
  match json_example !! str "id", json_example !! str "category",
        json_example !! str "paragraphs", json_example !! str "attributes" with
  | Some (JStr i), Some c, Some (JList ps), Some a =>
      paragraphs ← mapM Paragraph_of_json ps;
      Some {| doc_id := i; doc_category := c;
              doc_paragraphs := paragraphs; doc_attributes := a |}
  | _, _, _, _ => None
  end.

(** ** Inputs of the scenarios *)

(** Scenario D: 25 tokens, 9 of them CSS elements. *)
Definition scenario_D_text : pystr :=
  join (str " ") (repeat (str "div") 9 ++ repeat (str "item") 16).

(** A title that is one emoji, written as the two numeric references of
    its UTF-16 surrogate pair. *)
Definition emoji_title : Paragraph :=
  {| text := str "&#55357;&#56832;"; source := _TITLE |}.

Definition emoji_document : Document :=
  {| doc_id := str "X1";
     doc_category := JStr (str "c");
     doc_paragraphs := [emoji_title];
     doc_attributes := JDict ∅ |}.

(** A description in which a reference to a surrogate splits a marker. *)
Definition split_marker_document : Document :=
  {| doc_id := str "X1";
     doc_category := JStr (str "c");
     doc_paragraphs :=
       [{| text := str "Lamp"; source := _TITLE |};
        {| text := str "javascript&#55357;:void(0)"; source := _DESCRIPTION |}];
     doc_attributes := JDict ∅ |}.

(** A description that shows markup as text, escaped twice. *)
Definition escaped_twice : Paragraph :=
  {| text := str "&amp;amp;"; source := _DESCRIPTION |}.

(** A title in which a lone surrogate splits the corrupted-timestamp word. *)
Definition split_getTime_title : Paragraph :=
  {| text := str "get" ++ [0xD800%N] ++ str "Time"; source := _TITLE |}.

Definition plain_title : Paragraph :=
  {| text := str "Hello  World"; source := _TITLE |}.

(** Scenario A. *)
Definition scenario_A_record : JsonObject :=
  {[ _ASIN := JStr (str "X1");
     _TITLE := JStr (str "Hello  World");
     _DESCRIPTION :=
       JList [JStr (str "<p>Nice <script>evil()</script>item</p>")] ]}.

Definition scenario_A_label : JsonObject :=
  {[ str "id" := JStr (str "X1");
     str "category" := JStr (str "c");
     str "attributes" := JDict ∅ ]}.

Definition scenario_A_index : gmap pystr JsonObject :=
  {[ str "X1" := scenario_A_label ]}.

Definition scenario_A_paragraphs : list Paragraph :=
  [{| text := str "Hello  World"; source := _TITLE |};
   {| text := str "<p>Nice <script>evil()</script>item</p>";
      source := _DESCRIPTION |}].

Definition scenario_A_document : Document :=
  {| doc_id := str "X1";
     doc_category := JStr (str "c");
     doc_paragraphs :=
       [{| text := str "Hello World"; source := _TITLE |};
        {| text := str "Nice item"; source := _DESCRIPTION |}];
     doc_attributes := JDict ∅ |}.

(** Scenario B: the only title holds the corrupted-timestamp word. *)
Definition scenario_B_document : Document :=
  {| doc_id := str "X3";
     doc_category := JStr (str "c");
     doc_paragraphs :=
       [{| text := str "new Date().getTime()"; source := _TITLE |};
        {| text := str "A durable lamp"; source := _DESCRIPTION |}];
     doc_attributes := JDict ∅ |}.

(** A record without [asin], and an index with a label for the empty
    identifier. *)
Definition record_without_asin : JsonObject :=
  {[ _TITLE := JStr (str "Lamp") ]}.

Definition label_of_empty_id : JsonObject :=
  {[ str "id" := JStr (str "");
     str "category" := JStr (str "c");
     str "attributes" := JDict ∅ ]}.

Definition index_with_empty_id : gmap pystr JsonObject :=
  {[ str "" := label_of_empty_id ]}.


(** A label record that has a field named [paragraphs]. *)
Definition label_with_paragraphs : JsonObject :=
  {[ str "id" := JStr (str "X1");
     str "category" := JStr (str "c");
     str "attributes" := JDict ∅;
     str "paragraphs" := JStr (str "from the label") ]}.

(** Scenario A before cleaning, and the object that the flattening yields
    for it. *)
Definition scenario_A_input : Document :=
  {| doc_id := str "X1";
     doc_category := JStr (str "c");
     doc_paragraphs := scenario_A_paragraphs;
     doc_attributes := JDict ∅ |}.

Definition scenario_A_flattened : JsonObject :=
  dict_update
    {[ str "paragraphs" :=
         JList (List.map Paragraph_json scenario_A_paragraphs) ]}
    scenario_A_label.

(** What is read of a counting run: the value of one counter and the
    yielded documents. *)
Definition observe (k : counter) (r : result (Metrics * list Document))
    : option (nat * list Document) :=
  match r with
  | Ok (m, documents) => Some (m k, documents)
  | Raise _ => None
  end.

(** Thirty tokens, every one a CSS element. *)
Definition css_noise_text : pystr := join (str " ") (repeat (str "div") 30).

(** ** Python strings: splitting and joining *)

Section Strings.

Implicit Types (s cur t : pystr) (ts : list pystr).

Lemma split_from_token t : forall cur s,
  Forall (fun c => isspace c = false) t ->
  split_from cur (t ++ s) = split_from (cur ++ t) s.
Proof.
  induction t as [|c t IH]; intros cur s Ht; simpl.
  - by rewrite app_nil_r.
  - inversion Ht as [|? ? Hc Ht']; subst. rewrite Hc.
    rewrite IH by done. by rewrite <- app_assoc.
Qed.

Lemma split_from_space c cur s :
  isspace c = true -> cur <> [] ->
  split_from cur (c :: s) = cur :: split_from [] s.
Proof. intros Hc Hcur. simpl. rewrite Hc. by destruct cur. Qed.

Lemma split_from_tokens s : forall cur,
  Forall (fun c => isspace c = false) cur ->
  Forall is_token (split_from cur s).
Proof.
  induction s as [|c s IH]; intros cur Hcur; simpl.
  - destruct cur; constructor; [|constructor]. by split.
  - destruct (isspace c) eqn:Hc.
    + destruct cur as [|c' cur'].
      * apply IH. constructor.
      * constructor; [by split|]. apply IH. constructor.
    + apply IH. apply Forall_app. split; [done|]. by repeat constructor.
Qed.

Lemma split_tokens s : Forall is_token (split s).
Proof. apply split_from_tokens. constructor. Qed.

Lemma split_join ts :
  Forall is_token ts -> split (join (str " ") ts) = ts.
Proof.
  unfold split. induction ts as [|t ts IH]; intros Hts; [done|].
  inversion Hts as [|? ? [Hne Ht] Hts']; subst.
  destruct ts as [|t' ts].
  - simpl. rewrite <- (app_nil_r t) at 1.
    rewrite split_from_token by done. simpl. by destruct t.
  - change (join (str " ") (t :: t' :: ts))
      with (t ++ 32%N :: join (str " ") (t' :: ts)).
    rewrite split_from_token by done. simpl app at 1.
    rewrite split_from_space by done. by rewrite IH.
Qed.

Lemma split_ws_normalize s : split (ws_normalize s) = split s.
Proof. apply split_join, split_tokens. Qed.

Lemma ws_normalize_idempotent s : ws_normalize (ws_normalize s) = ws_normalize s.
Proof. unfold ws_normalize at 1. by rewrite split_ws_normalize. Qed.

Lemma join_tokens_nil ts :
  Forall is_token ts -> join (str " ") ts = [] -> ts = [].
Proof.
  destruct ts as [|t ts]; [done|]. intros Hts.
  inversion Hts as [|? ? [Hne _] _]; subst.
  destruct t; [done|]. by destruct ts.
Qed.

Lemma split_nonempty s : ws_normalize s <> [] -> split s <> [].
Proof. intros Hs Hsplit. apply Hs. unfold ws_normalize. by rewrite Hsplit. Qed.

Lemma split_whitespace s : forallb isspace s = true -> split s = [].
Proof.
  unfold split. induction s as [|c s IH]; [done|].
  simpl. intros [Hc Hs]%andb_prop. rewrite Hc. auto.
Qed.

Lemma utf8_ignore_roundtrip_encodable s :
  encodable s -> utf8_ignore_roundtrip s = s.
Proof.
  induction 1 as [|c s Hc _ IH]; [done|].
  simpl. rewrite Hc. simpl. by rewrite IH.
Qed.

Lemma utf8_ignore_roundtrip_is_encodable s :
  encodable (utf8_ignore_roundtrip s).
Proof.
  induction s as [|c s IH]; [constructor|].
  simpl. destruct (is_surrogate c) eqn:Hc; simpl; [done|].
  by constructor.
Qed.

End Strings.

(** ** The recoding on the bytes *)

Ltac decide_bounds :=
  repeat (match goal with
          | |- context [(?a <? ?b)%N] => destruct (N.ltb_spec a b); try lia
          | |- context [(?a <=? ?b)%N] => destruct (N.leb_spec a b); try lia
          end; simpl andb; simpl negb; cbv iota).

Lemma utf8_decode_encode_char (c : N) (bs : list N) :
  (c <= 0x10FFFF)%N ->
  utf8_decode (utf8_encode_char c ++ bs)
  = (s ← utf8_decode bs; Ok (if is_surrogate c then s else c :: s)).
Proof.
  intros Hc.
  pose proof (N.div_mod c 64 ltac:(lia)) as Hdm.
  pose proof (N.mod_lt c 64 ltac:(lia)) as Hm.
  pose proof (N.div_mod (c / 64) 64 ltac:(lia)) as Hdm2.
  pose proof (N.mod_lt (c / 64) 64 ltac:(lia)) as Hm2.
  pose proof (N.div_mod (c / 64 / 64) 64 ltac:(lia)) as Hdm3.
  pose proof (N.mod_lt (c / 64 / 64) 64 ltac:(lia)) as Hm3.
  unfold utf8_encode_char, is_surrogate.
  replace (c / 262144)%N with (c / 64 / 64 / 64)%N
    by (rewrite !N.Div0.div_div; done).
  replace (c / 4096)%N with (c / 64 / 64)%N
    by (rewrite N.Div0.div_div; done).
  set (q := (c / 64)%N) in *. set (r := (c mod 64)%N) in *.
  set (q2 := (q / 64)%N) in *. set (r2 := (q mod 64)%N) in *.
  set (q3 := (q2 / 64)%N) in *. set (r3 := (q2 mod 64)%N) in *.
  destruct (N.ltb_spec c 0x80); [|destruct (N.ltb_spec c 0x800);
    [|destruct (N.ltb_spec c 0x10000);
      [destruct (N.leb_spec 0xD800 c), (N.leb_spec c 0xDFFF);
       simpl andb; cbv iota|]]];
    simpl app; unfold utf8_decode; fold utf8_decode;
    unfold continuation, is_surrogate.
  - decide_bounds; done.
  - replace ((0xC0 + q - 0xC0) * 64 + (0x80 + r - 0x80))%N with c by lia.
    decide_bounds; done.
  - by destruct (utf8_decode bs).
  - replace ((0xE0 + q2 - 0xE0) * 4096 + (0x80 + r2 - 0x80) * 64
             + (0x80 + r - 0x80))%N with c by lia.
    decide_bounds; done.
  - replace ((0xE0 + q2 - 0xE0) * 4096 + (0x80 + r2 - 0x80) * 64
             + (0x80 + r - 0x80))%N with c by lia.
    decide_bounds; done.
  - replace ((0xE0 + q2 - 0xE0) * 4096 + (0x80 + r2 - 0x80) * 64
             + (0x80 + r - 0x80))%N with c by lia.
    decide_bounds; done.
  - replace ((0xF0 + q3 - 0xF0) * 262144 + (0x80 + r3 - 0x80) * 4096
             + (0x80 + r2 - 0x80) * 64 + (0x80 + r - 0x80))%N with c by lia.
    decide_bounds; done.
Qed.

(** X18. On the bytes: encoding a text to UTF-8 with the [ignore] handler
    and decoding the bytes strictly never fails, and gives back the text
    without its lone surrogates. *)
Lemma utf8_decode_encode_ignore (s : pystr) :
  Forall (fun c => (c <= 0x10FFFF)%N) s ->
  utf8_decode (utf8_encode_ignore s) = Ok (utf8_ignore_roundtrip s).
Proof.
  induction 1 as [|c s Hc _ IH]; [done|].
  unfold utf8_encode_ignore. simpl flat_map.
  rewrite utf8_decode_encode_char by done.
  fold (utf8_encode_ignore s). rewrite IH. simpl.
  by destruct (is_surrogate c).
Qed.

(** ** The CSS-noise detector *)

Lemma count_tokens_fold tokens : forall num_tokens num_css_elements,
  fold_left
    (fun '(num_tokens, num_css_elements) token =>
       let num_tokens := (num_tokens + 1)%Z in
       if is_css_element token
       then (num_tokens, (num_css_elements + 1)%Z)
       else (num_tokens, num_css_elements))
    tokens (num_tokens, num_css_elements)
  = ((num_tokens + Z.of_nat (List.length tokens))%Z,
     (num_css_elements
      + Z.of_nat (List.length (List.filter is_css_element tokens)))%Z).
Proof.
  induction tokens as [|t tokens IH]; intros n c; simpl.
  - f_equal; lia.
  - destruct (is_css_element t); rewrite IH; simpl; f_equal; lia.
Qed.

Lemma count_tokens_length tokens :
  count_tokens tokens
  = (Z.of_nat (List.length tokens),
     Z.of_nat (List.length (List.filter is_css_element tokens))).
Proof. unfold count_tokens. by rewrite count_tokens_fold. Qed.

Lemma is_css_element_spec token : is_css_element token = spec_css_element token.
Proof.
  unfold is_css_element, spec_css_element, count_char. simpl existsb.
  rewrite orb_false_r, !orb_assoc. f_equal.
  set (k := List.length _).
  destruct (Z.ltb_spec 1 (Z.of_nat k)), (Nat.leb_spec 2 k); done || lia.
Qed.

Lemma filter_css_element tokens :
  List.filter is_css_element tokens = List.filter spec_css_element tokens.
Proof.
  induction tokens as [|t tokens IH]; [done|].
  simpl. by rewrite is_css_element_spec, IH.
Qed.

(** [is_css] in terms of the two counts of the specification. *)
Lemma is_css_counts text :
  total_token_count text <> 0%nat ->
  is_css text
  = Ok (Qgtb (inject_Z (Z.of_nat (css_element_count text))
              / inject_Z (Z.of_nat (total_token_count text))) (3 # 10)
        && (20 <? Z.of_nat (css_element_count text))%Z).
Proof.
  intros Hn. unfold is_css, css_element_count, total_token_count in *.
  rewrite count_tokens_length, filter_css_element. unfold truediv.
  destruct (Z.eqb_spec (Z.of_nat (List.length (split text))) 0); [lia|done].
Qed.

Lemma Qgtb_lt x y : Qgtb x y = true <-> (y < x)%Q.
Proof.
  unfold Qgtb. rewrite negb_true_iff, <- not_true_iff_false, Qle_bool_iff.
  split; [apply Qnot_le_lt | apply Qlt_not_le].
Qed.

(** *** The exact quotient stands for the double *)

Section DoubleQuotient.

Local Open Scope Z_scope.

Lemma round_half_even_gt (x y M : Z) :
  (0 < y)%Z -> Z.odd M = true ->
  (M < round_half_even x y <-> (2 * M + 1) * y <= 2 * x)%Z.
Proof.
  intros Hy HM. unfold round_half_even.
  pose proof (Z.div_mod x y ltac:(lia)) as Hx.
  pose proof (Z.mod_pos_bound x y Hy) as Hr.
  set (q := (x / y)%Z) in *. set (r := (x mod y)%Z) in *.
  destruct (Z.ltb_spec (2 * r) y); [nia|].
  destruct (Z.ltb_spec y (2 * r)); [nia|].
  assert (2 * r = y)%Z by lia.
  destruct (Z.even q) eqn:Hq.
  - assert (q <> M)
      by (intros ->; rewrite <- Z.negb_odd, HM in Hq; discriminate).
    nia.
  - nia.
Qed.

Lemma Qgtb_div (m P n : Z) (d : positive) :
  (0 < P)%Z ->
  Qgtb (inject_Z m / inject_Z P) (n # d) = (n * P <? m * Z.pos d)%Z.
Proof.
  intros HP. destruct P as [|p|p]; try lia.
  unfold Qgtb, Qle_bool, Qdiv, Qmult, Qinv, inject_Z. simpl.
  rewrite ?Z.mul_1_r, ?Pos.mul_1_l.
  destruct (Z.leb_spec (m * Z.pos d) (n * Z.pos p)),
           (Z.ltb_spec (n * Z.pos p) (m * Z.pos d)); simpl; lia.
Qed.

Lemma binade_spec (a b : Z) :
  (0 < a <= b)%Z ->
  (binade a b <= 0 /\ b <= a * 2 ^ (- binade a b) < 2 * b)%Z.
Proof.
  intros Hab. unfold binade.
  pose proof (Z.log2_spec a ltac:(lia)) as Ha.
  pose proof (Z.log2_spec b ltac:(lia)) as Hb.
  pose proof (Z.log2_le_mono a b ltac:(lia)) as Hle.
  pose proof (Z.log2_nonneg a) as Hla.
  set (la := Z.log2 a) in *. set (lb := Z.log2 b) in *.
  set (k := (lb - la)%Z).
  assert (Hk : (0 <= k)%Z) by lia.
  assert (Hpow : (2 ^ lb = 2 ^ la * 2 ^ k)%Z).
  { rewrite <- Z.pow_add_r by lia. f_equal; lia. }
  assert (Hpow1 : (2 ^ (Z.succ lb) = 2 * 2 ^ lb)%Z)
    by (apply Z.pow_succ_r; lia).
  assert (Hpow2 : (2 ^ (Z.succ la) = 2 * 2 ^ la)%Z)
    by (apply Z.pow_succ_r; lia).
  assert (Hk0 : (0 < 2 ^ k)%Z) by (apply Z.pow_pos_nonneg; lia).
  destruct (Z.ltb_spec (a * 2 ^ k) b).
  - replace (- (- k - 1))%Z with (Z.succ k) by lia.
    rewrite Z.pow_succ_r by lia. split; [lia|]. nia.
  - replace (- - k)%Z with k by lia. split; [lia|]. nia.
Qed.

(** Comparing the double of [a / b] with the double [0.3] is comparing the
    exact quotient with 3/10. *)
Lemma double_truediv_against_0_3 (a b : Z) :
  (0 <= a <= b)%Z -> (0 < b < 2 ^ 52)%Z ->
  Qgtb (double_truediv a b) double_0_3
  = Qgtb (inject_Z a / inject_Z b) (3 # 10).
Proof.
  intros Ha Hb. rewrite (Qgtb_div a b 3 10) by lia.
  unfold double_truediv. destruct (Z.eqb_spec a 0) as [->|Hne].
  { replace (3 * b <? 0 * 10)%Z with false
      by (symmetry; apply Z.ltb_ge; lia).
    reflexivity. }
  destruct (binade_spec a b ltac:(lia)) as [He Hbin].
  set (e := binade a b) in *. clearbody e.
  assert (Hscale : (2 ^ (52 - e) = 2 ^ 52 * 2 ^ (- e))%Z).
  { rewrite <- Z.pow_add_r by lia. f_equal; lia. }
  assert (Hpos : (0 < 2 ^ (- e))%Z) by (apply Z.pow_pos_nonneg; lia).
  unfold double_0_3. rewrite Qgtb_div by lia.
  change (Z.pos 18014398509481984) with (2 ^ 54)%Z.
  set (m := round_half_even (a * 2 ^ (52 - e)) b).
  destruct (Z.eq_dec e (-2)) as [He2|He2].
  - (* the binade of 0.3 *)
    subst e. change (2 ^ (52 - -2))%Z with (2 ^ 54)%Z in *.
    change (2 ^ (- -2))%Z with 4%Z in *.
    assert (Hm : (5404319552844595 < m <-> 3 * b < a * 10)%Z).
    { unfold m. rewrite round_half_even_gt by (done || lia).
      change (2 ^ 54)%Z with 18014398509481984%Z.
      change (2 ^ 52)%Z with 4503599627370496%Z in Hb. lia. }
    destruct (Z.ltb_spec (5404319552844595 * 2 ^ 54) (m * 2 ^ 54)),
             (Z.ltb_spec (3 * b) (a * 10)); try done; lia.
  - assert (Hm : (2 ^ 52 <= m <= 2 ^ 53)%Z).
    { unfold m, round_half_even. rewrite Hscale.
      pose proof (Z.div_mod (a * (2 ^ 52 * 2 ^ (- e))) b ltac:(lia)) as Hx.
      pose proof (Z.mod_pos_bound (a * (2 ^ 52 * 2 ^ (- e))) b ltac:(lia))
        as Hr.
      set (q := (_ / b)%Z) in *. set (r := (_ mod b)%Z) in *.
      assert (2 ^ 52 <= q < 2 ^ 53)%Z by nia.
      destruct (_ <? _)%Z; [lia|]. destruct (_ <? _)%Z; [lia|].
      destruct (Z.even q); lia. }
    rewrite Hscale.
    destruct (Z_le_gt_dec (-1) e) as [Hhi|Hlo].
    + (* one half and above *)
      assert (2 ^ (- e) <= 2)%Z
        by (assert (e = 0 \/ e = -1)%Z as [->| ->] by lia; done).
      destruct (Z.ltb_spec (5404319552844595 * (2 ^ 52 * 2 ^ (- e)))
                  (m * 2 ^ 54)),
               (Z.ltb_spec (3 * b) (a * 10)); try done; nia.
    + (* below one quarter *)
      assert (8 <= 2 ^ (- e))%Z.
      { change 8%Z with (2 ^ 3)%Z. apply Z.pow_le_mono_r; lia. }
      destruct (Z.ltb_spec (5404319552844595 * (2 ^ 52 * 2 ^ (- e)))
                  (m * 2 ^ 54)),
               (Z.ltb_spec (3 * b) (a * 10)); try done; nia.
Qed.

(** X21. The test [a / b > 0.3] of [is_css] gives the same answer on the
    binary64 quotient against the double [0.3] as on the exact quotient
    against 3/10, for every count of CSS elements [a] among [b] tokens below
    2^52; with no token both raise [ZeroDivisionError]. *)
Lemma truediv_double_agrees (a b : Z) :
  (0 <= a <= b)%Z -> (b < 2 ^ 52)%Z ->
  (if (b =? 0)%Z then Raise ZeroDivisionError
   else Ok (Qgtb (double_truediv a b) double_0_3))
  = (ratio ← truediv a b; Ok (Qgtb ratio (3 # 10))).
Proof.
  intros Ha Hb. unfold truediv. destruct (Z.eqb_spec b 0); [done|].
  simpl. by rewrite double_truediv_against_0_3 by lia.
Qed.

End DoubleQuotient.

Lemma normalized_has_token text :
  text <> [] -> ws_normalize text = text -> total_token_count text <> 0%nat.
Proof.
  intros Hne Hnorm Hlen. apply Hne. rewrite <- Hnorm.
  unfold ws_normalize, total_token_count in *.
  by destruct (split text).
Qed.

(** C2. On a whitespace-normalized paragraph text the CSS-noise detector
    answers, and it answers "drop" exactly when the ratio of CSS elements to
    tokens exceeds 0.3 and there are more than 20 CSS elements; a text of 25
    tokens with 9 CSS elements is retained. *)
Theorem is_css_threshold (text : pystr) :
  text <> [] ->
  ws_normalize text = text ->
  (exists drop, is_css text = Ok drop /\ (drop = true <-> spec_css_noise text))
  /\ (total_token_count text = 25%nat -> css_element_count text = 9%nat ->
      is_css text = Ok false).
Proof.
  intros Hne Hnorm.
  pose proof (normalized_has_token text Hne Hnorm) as Htok.
  rewrite (is_css_counts text Htok). split.
  - eexists. split; [reflexivity|].
    unfold spec_css_noise.
    rewrite andb_true_iff, Qgtb_lt, Z.ltb_lt. split; intros [? ?]; split; (done || lia).
  - intros _ ->. by rewrite andb_false_r.
Qed.

Lemma is_css_threshold_witness :
  scenario_D_text <> []
  /\ ws_normalize scenario_D_text = scenario_D_text
  /\ total_token_count scenario_D_text = 25%nat
  /\ css_element_count scenario_D_text = 9%nat
  /\ is_css scenario_D_text = Ok false.
Proof.
  assert (H1 : scenario_D_text <> []) by (vm_compute; discriminate).
  assert (H2 : ws_normalize scenario_D_text = scenario_D_text)
    by (vm_compute; reflexivity).
  assert (H3 : total_token_count scenario_D_text = 25%nat)
    by (vm_compute; reflexivity).
  assert (H4 : css_element_count scenario_D_text = 9%nat)
    by (vm_compute; reflexivity).
  split; [exact H1|]. split; [exact H2|].
  split; [exact H3|]. split; [exact H4|].
  exact (proj2 (is_css_threshold scenario_D_text H1 H2) H3 H4).
Defined.

Lemma is_css_total text :
  total_token_count text <> 0%nat -> exists drop, is_css text = Ok drop.
Proof. intros Htok. rewrite (is_css_counts text Htok). eauto. Qed.

Lemma is_css_whitespace s :
  forallb isspace s = true -> is_css s = Raise ZeroDivisionError.
Proof. intros Hs. unfold is_css. by rewrite (split_whitespace s Hs). Qed.

(** ** The cleaning chain *)

Section CleanerFacts.

Import CleanParagraphsFn.

Variable BeautifulSoup : pystr -> list node.

Local Abbreviation checked := (checked_text BeautifulSoup).

Lemma checked_text_tokens p :
  checked p <> [] -> total_token_count (checked p) <> 0%nat.
Proof.
  intros Hne. apply normalized_has_token; [done|].
  apply ws_normalize_idempotent.
Qed.

(** What it takes for a paragraph to pass the chain. *)
Lemma clean_paragraph_Some p q :
  clean_paragraph BeautifulSoup p = Ok (Some q) <->
  (source p = str "title" -> contains (str "getTime") (text p) = false)
  /\ checked p <> []
  /\ is_html (checked p) = false
  /\ is_css (checked p) = Ok false
  /\ q = {| text := utf8_ignore_roundtrip (checked p); source := source p |}.
Proof.
  unfold clean_paragraph. fold (checked p).
  destruct (bool_decide_reflect (source p = str "title")) as [Hsrc|Hsrc];
    destruct (contains (str "getTime") (text p)) eqn:Hget; simpl;
    try (split; [discriminate | intros [Hno _]; by specialize (Hno Hsrc)]);
    (destruct (bool_decide_reflect (checked p = [])) as [Hnil|Hnil];
      [split; [discriminate | by intros (_ & ? & _)]|];
     destruct (is_html (checked p)) eqn:Hhtml;
      [split; [discriminate | by intros (_ & _ & ? & _)]|];
     destruct (is_css_total _ (checked_text_tokens p Hnil)) as [drop Hcss];
     rewrite Hcss; simpl; destruct drop;
      [split; [discriminate | by intros (_ & _ & _ & ? & _)]|];
     split; [intros [= <-]; by repeat split | by intros (_ & _ & _ & _ & ->)]).
Qed.

(** The chain never raises: the detector that divides is reached with at
    least one token only. *)
Lemma clean_paragraph_total p :
  exists r, clean_paragraph BeautifulSoup p = Ok r.
Proof.
  unfold clean_paragraph. fold (checked p).
  destruct (_ && _); [eauto|].
  destruct (bool_decide_reflect (checked p = [])) as [Hnil|Hnil]; [eauto|].
  destruct (is_html (checked p)); [eauto|].
  destruct (is_css_total _ (checked_text_tokens p Hnil)) as [drop ->].
  simpl. destruct drop; eauto.
Qed.

Lemma clean_paragraphs_total ps :
  exists survivors, clean_paragraphs BeautifulSoup ps = Ok survivors.
Proof.
  induction ps as [|p ps [rest IH]]; simpl; [eauto|].
  destruct (clean_paragraph_total p) as [r ->]. simpl. rewrite IH. simpl.
  eauto.
Qed.

(** Every survivor is what the chain made of one input paragraph. *)
Lemma clean_paragraphs_survivor ps : forall survivors q,
  clean_paragraphs BeautifulSoup ps = Ok survivors ->
  In q survivors ->
  exists p, In p ps /\ clean_paragraph BeautifulSoup p = Ok (Some q).
Proof.
  induction ps as [|p ps IH]; simpl; intros survivors q Hclean Hq.
  - injection Hclean as <-. destruct Hq.
  - destruct (clean_paragraph_total p) as [r Hr]. rewrite Hr in Hclean.
    destruct (clean_paragraphs_total ps) as [rest Hrest].
    rewrite Hrest in Hclean. simpl in Hclean. injection Hclean as <-.
    destruct r as [q'|].
    + destruct Hq as [<-|Hq]; [eauto|].
      destruct (IH rest q Hrest Hq) as (p' & ? & ?). eauto.
    + destruct (IH rest q Hrest Hq) as (p' & ? & ?). eauto.
Qed.

Lemma has_title_spec ps :
  has_title ps = true <-> exists p, In p ps /\ source p = str "title".
Proof.
  unfold has_title. rewrite existsb_exists.
  split; intros (p & Hp & Hsrc); exists p; split; try done.
  - by apply bool_decide_eq_true in Hsrc.
  - by apply bool_decide_eq_true.
Qed.

(** C3. After the per-paragraph chain a Document is emitted if and only if
    a surviving paragraph has source [title]; without one nothing is
    emitted for the document. *)
Theorem title_gate (json_example : Document) :
  exists survivors,
    clean_paragraphs BeautifulSoup (doc_paragraphs json_example)
    = Ok survivors
    /\ ((exists p, In p survivors /\ source p = str "title") <->
        process BeautifulSoup json_example
        = Ok [{| doc_id := doc_id json_example;
                 doc_category := doc_category json_example;
                 doc_paragraphs := survivors;
                 doc_attributes := doc_attributes json_example |}])
    /\ (~ (exists p, In p survivors /\ source p = str "title") <->
        process BeautifulSoup json_example = Ok []).
Proof.
  destruct (clean_paragraphs_total (doc_paragraphs json_example))
    as [survivors Hs].
  exists survivors. split; [done|].
  unfold process. rewrite Hs. simpl.
  rewrite <- has_title_spec. destruct (has_title survivors).
  - split; split; done.
  - split; split; done.
Qed.

(** C9. The text handed to [is_css] by the chain is whitespace-normalized
    and not empty, so it has at least one token and the division is
    defined: the chain never raises.  On an empty or whitespace-only
    string [is_css] itself raises [ZeroDivisionError]. *)
Theorem is_css_division (paragraph : Paragraph) (s : pystr) :
  (checked paragraph <> [] ->
     (1 <= total_token_count (checked paragraph))%nat
     /\ exists drop, is_css (checked paragraph) = Ok drop)
  /\ (exists r, clean_paragraph BeautifulSoup paragraph = Ok r)
  /\ (forallb isspace s = true -> is_css s = Raise ZeroDivisionError).
Proof.
  split; [|split].
  - intros Hne. pose proof (checked_text_tokens paragraph Hne) as Htok.
    split; [lia|]. by apply is_css_total.
  - apply clean_paragraph_total.
  - apply is_css_whitespace.
Qed.

End CleanerFacts.

(** ** The emitted documents *)

Section EmittedDocuments.

Import CleanParagraphsFn.

Variable BeautifulSoup : pystr -> list node.

Local Abbreviation checked := (checked_text BeautifulSoup).

Lemma process_emits json_example d :
  process BeautifulSoup json_example = Ok [d] ->
  clean_paragraphs BeautifulSoup (doc_paragraphs json_example)
  = Ok (doc_paragraphs d)
  /\ has_title (doc_paragraphs d) = true.
Proof.
  unfold process.
  destruct (clean_paragraphs_total BeautifulSoup (doc_paragraphs json_example))
    as [survivors ->].
  simpl. destruct (has_title survivors) eqn:Ht; [|discriminate].
  by intros [= <-].
Qed.

(** The checks of the chain bear on the text before the last recoding:
    every emitted paragraph is the recoding of a checked text that is not
    empty, holds no marker and is not CSS noise. *)
Lemma emitted_paragraph_checked json_example d q :
  process BeautifulSoup json_example = Ok [d] ->
  In q (doc_paragraphs d) ->
  exists p,
    In p (doc_paragraphs json_example)
    /\ source q = source p
    /\ text q = utf8_ignore_roundtrip (checked p)
    /\ checked p <> []
    /\ is_html (checked p) = false
    /\ is_css (checked p) = Ok false.
Proof.
  intros [Hclean _]%process_emits Hq.
  destruct (clean_paragraphs_survivor _ _ _ _ Hclean Hq) as (p & Hp & Hpq).
  apply clean_paragraph_Some in Hpq as (_ & ? & ? & ? & ->).
  exists p. by repeat split.
Qed.

(** Where markup stripping leaves no lone surrogate behind, the emitted
    document is well formed. *)
Lemma emitted_document_well_formed json_example d :
  process BeautifulSoup json_example = Ok [d] ->
  (forall p, In p (doc_paragraphs json_example) -> encodable (checked p)) ->
  (forall q, In q (doc_paragraphs d) ->
     text q <> [] /\ is_html (text q) = false /\ is_css (text q) = Ok false)
  /\ exists q, In q (doc_paragraphs d) /\ source q = str "title".
Proof.
  intros Hd Henc. split.
  - intros q Hq.
    destruct (emitted_paragraph_checked _ _ _ Hd Hq)
      as (p & Hp & _ & -> & ? & ? & ?).
    by rewrite utf8_ignore_roundtrip_encodable by auto.
  - apply has_title_spec, (process_emits _ _ Hd).
Qed.

(** C8, as amended.  For a surviving paragraph whose checked text had no
    lone surrogate, the cleaned text is whitespace-normalized and neither
    detector flags it; cleaning it again returns the same paragraph
    whenever markup stripping and whitespace normalization leave the text
    as it is and the malformed-title filter does not apply to it. *)
Theorem clean_paragraph_again (p q : Paragraph) :
  clean_paragraph BeautifulSoup p = Ok (Some q) ->
  encodable (checked p) ->
  (ws_normalize (text q) = text q
   /\ is_html (text q) = false
   /\ is_css (text q) = Ok false)
  /\ (ws_normalize (remove_tags BeautifulSoup (text q)) = text q ->
      (source q = str "title" -> contains (str "getTime") (text q) = false) ->
      clean_paragraph BeautifulSoup q = Ok (Some q)).
Proof.
  intros (_ & Hne & Hhtml & Hcss & ->)%clean_paragraph_Some Henc. simpl.
  rewrite (utf8_ignore_roundtrip_encodable _ Henc).
  split.
  - split; [apply ws_normalize_idempotent | done].
  - intros Hfix Htitle. apply clean_paragraph_Some.
    assert (Hq : checked {| text := checked p; source := source p |}
                 = checked p).
    { unfold checked_text at 1. simpl.
      by rewrite (utf8_ignore_roundtrip_encodable _ Henc). }
    rewrite Hq, (utf8_ignore_roundtrip_encodable _ Henc). by repeat split.
Qed.

End EmittedDocuments.

(** *** The cleaner and the parser

    The cleaner consults the parser on the recoded text of each paragraph
    and nowhere else. *)

Lemma clean_paragraph_parse (BS BS' : pystr -> list node) (p : Paragraph) :
  BS (utf8_ignore_roundtrip (text p)) = BS' (utf8_ignore_roundtrip (text p)) ->
  CleanParagraphsFn.clean_paragraph BS p
  = CleanParagraphsFn.clean_paragraph BS' p.
Proof.
  intros Hparse. unfold CleanParagraphsFn.clean_paragraph, remove_tags.
  by rewrite Hparse.
Qed.

Lemma clean_paragraphs_parse (BS BS' : pystr -> list node)
    (ps : list Paragraph) :
  Forall (fun p => BS (utf8_ignore_roundtrip (text p))
                   = BS' (utf8_ignore_roundtrip (text p))) ps ->
  CleanParagraphsFn.clean_paragraphs BS ps
  = CleanParagraphsFn.clean_paragraphs BS' ps.
Proof.
  induction 1 as [|p ps Hp _ IH]; [done|].
  simpl. by rewrite (clean_paragraph_parse BS BS' p Hp), IH.
Qed.

Lemma process_parse (BS BS' : pystr -> list node) (json_example : Document) :
  Forall (fun p => BS (utf8_ignore_roundtrip (text p))
                   = BS' (utf8_ignore_roundtrip (text p)))
    (doc_paragraphs json_example) ->
  CleanParagraphsFn.process BS json_example
  = CleanParagraphsFn.process BS' json_example.
Proof.
  intros Hparse. unfold CleanParagraphsFn.process.
  by rewrite (clean_paragraphs_parse BS BS' _ Hparse).
Qed.

(** *** Markup stripping *)

(** C7, as amended.  When the parse of the input is one text node whose
    trimmed content is the trimmed input, markup stripping returns the
    trimmed input. *)
Theorem remove_tags_plain_text (BeautifulSoup : pystr -> list node)
    (html s : pystr) :
  BeautifulSoup html = [NavigableString s] ->
  strip s = strip html ->
  remove_tags BeautifulSoup html = strip html.
Proof.
  intros Hsoup Hs. unfold remove_tags. rewrite Hsoup.
  unfold stripped_strings. simpl. rewrite Hs.
  by destruct (strip html).
Qed.

(** ** De-duplication *)

Section DedupeFacts.

Context {A K : Type} `{Countable K} (key : A -> K).

Lemma group_of_key k elements x :
  x ∈ group_of key k elements -> key x = k.
Proof.
  intros [_ Hk%bool_decide_eq_true]%list_elem_of_In%filter_In. done.
Qed.

Lemma GroupBy_fold elements : forall (groups : gmap K (list A)) k,
  fold_left
    (fun groups x => <[key x := default [] (groups !! key x) ++ [x]]> groups)
    elements groups !! k
  = match group_of key k elements with
    | [] => groups !! k
    | g => Some (default [] (groups !! k) ++ g)
    end.
Proof.
  induction elements as [|x elements IH]; intros groups k; [done|].
  simpl. rewrite IH. unfold group_of. simpl.
  destruct (bool_decide_reflect (key x = k)) as [->|Hne].
  - rewrite lookup_insert_eq. simpl.
    destruct (List.filter _ elements); [done|].
    by rewrite <- app_assoc.
  - by rewrite lookup_insert_ne.
Qed.

(** The group of a key holds the elements with that key, in order. *)
Lemma GroupBy_lookup elements k :
  GroupBy key elements !! k
  = match group_of key k elements with
    | [] => None
    | g => Some g
    end.
Proof. unfold GroupBy. rewrite GroupBy_fold. by destruct (group_of _ _ _). Qed.

Lemma mapM_result {B C} (f : B -> result C) (l : list B) :
  (forall x, x ∈ l -> exists y, f x = Ok y) ->
  exists out, mapM f l = Ok out /\ Forall2 (fun x y => f x = Ok y) l out.
Proof.
  induction l as [|x l IH]; intros Hf.
  - exists []. split; [done|constructor].
  - destruct (Hf x) as [y Hy]; [left|].
    destruct IH as (out & Hout & Hall).
    { intros x' Hx'. apply Hf. by right. }
    exists (y :: out). split; [|by constructor].
    simpl. rewrite Hy. simpl. rewrite Hout. done.
Qed.

Lemma first_of_group_lookup elements k g a :
  GroupBy key elements !! k = Some g ->
  first_of_group (k, g) = Ok a <-> head (group_of key k elements) = Some a.
Proof.
  rewrite GroupBy_lookup. unfold first_of_group. simpl.
  destruct (group_of key k elements) as [|a' g'] eqn:Hg; [done|].
  intros [= <-]. simpl. split; by intros [= ->].
Qed.

Lemma DedupeASIN_spec elements :
  exists out,
    DedupeASIN key elements = Ok out
    /\ NoDup (key <$> out)
    /\ forall a, a ∈ out <-> head (group_of key (key a) elements) = Some a.
Proof.
  destruct (mapM_result first_of_group (map_to_list (GroupBy key elements)))
    as (out & Hout & Hall).
  { intros [k g] Hkg%elem_of_map_to_list. rewrite GroupBy_lookup in Hkg.
    unfold first_of_group. simpl. destruct g; [|eauto].
    by destruct (group_of key k elements). }
  exists out. split; [done|].
  assert (Hfirst : forall kg a, kg ∈ map_to_list (GroupBy key elements) ->
            first_of_group kg = Ok a ->
            head (group_of key kg.1 elements) = Some a /\ key a = kg.1).
  { intros [k g] a Hkg%elem_of_map_to_list Ha.
    apply (first_of_group_lookup _ _ _ _ Hkg) in Ha. split; [done|].
    apply (group_of_key k elements). by apply head_Some_elem_of. }
  assert (Hgroup : forall a,
            head (group_of key (key a) elements) = Some a ->
            exists kg, kg ∈ map_to_list (GroupBy key elements)
                       /\ first_of_group kg = Ok a).
  { intros a Ha. exists (key a, group_of key (key a) elements). split.
    - apply elem_of_map_to_list. rewrite GroupBy_lookup.
      by destruct (group_of key (key a) elements).
    - unfold first_of_group. simpl.
      by destruct (group_of key (key a) elements); simplify_eq/=. }
  clear Hout. revert Hfirst Hgroup.
  generalize (group_of key) as grp.
  pose proof (NoDup_fst_map_to_list (GroupBy key elements)) as Hnodup.
  revert Hall Hnodup. generalize (map_to_list (GroupBy key elements)) as kgs.
  intros kgs Hall Hnodup grp Hfirst Hgroup.
  split; [|intros a; split].
  - replace (key <$> out) with (kgs.*1); [done|]. clear Hnodup Hgroup.
    induction Hall as [|kg a kgs' out' Ha Hall IH]; [done|].
    simpl. f_equal.
    + symmetry. apply (Hfirst kg a); [left|done].
    + apply IH. intros kg' a' Hin. apply Hfirst. by right.
  - intros Ha. clear Hnodup Hgroup.
    induction Hall as [|kg a' kgs' out' Ha' _ IH].
    + by apply elem_of_nil in Ha.
    + apply elem_of_cons in Ha as [->|Ha].
      * destruct (Hfirst kg a') as [Hhead Hkey]; [left|done|].
        by rewrite Hkey.
      * apply IH; [|done]. intros kg' a'' Hin. apply Hfirst. by right.
  - intros Ha. destruct (Hgroup a Ha) as (kg & Hkg & Hf).
    clear Hnodup Hgroup Hfirst Ha.
    induction Hall as [|kg' a' kgs' out' Ha' _ IH].
    + by apply elem_of_nil in Hkg.
    + apply elem_of_cons in Hkg as [<-|Hkg].
      * rewrite Hf in Ha'. injection Ha' as <-. left.
      * right. by apply IH.
Qed.

End DedupeFacts.

(** C4. On every finite sequence of Documents the Deduplicator returns one
    Document for each identifier that occurs: a Document is in the output
    exactly when it is the first of the Documents with its identifier in the
    order supplied, and no two Documents of the output share an identifier. *)
Theorem dedupe_first_per_identifier (documents : list Document) :
  exists out,
    DedupeASIN doc_id documents = Ok out
    /\ NoDup (doc_id <$> out)
    /\ (forall d, d ∈ out <->
                  head (group_of doc_id (doc_id d) documents) = Some d)
    /\ (forall k, k ∈ (doc_id <$> documents) -> k ∈ (doc_id <$> out)).
Proof.
  destruct (DedupeASIN_spec doc_id documents) as (out & Hout & Hnodup & Hin).
  exists out. repeat split; try done; try apply Hin.
  intros k (d & -> & Hd)%list_elem_of_fmap.
  destruct (group_of doc_id (doc_id d) documents) as [|d' g] eqn:Hg.
  - exfalso. assert (Hd' : d ∈ group_of doc_id (doc_id d) documents).
    { apply list_elem_of_In, filter_In. split; [by apply list_elem_of_In|].
      by apply bool_decide_eq_true. }
    rewrite Hg in Hd'. by apply elem_of_nil in Hd'.
  - assert (Hk : doc_id d' = doc_id d).
    { apply (group_of_key doc_id (doc_id d) documents). rewrite Hg. left. }
    apply list_elem_of_fmap. exists d'. split; [done|].
    apply Hin. by rewrite Hk, Hg.
Qed.

(** ** The join *)

Lemma size_zero_empty (labels : JsonObject) : size labels = 0%nat <-> labels = ∅.
Proof. apply map_size_empty_iff. Qed.

(** A record whose [asin] is a scalar other than a string finds no label. *)
Lemma join_scalar_asin (json_example : JsonObject)
    (labels_by_id : gmap pystr JsonObject) (v : json) :
  json_example !! _ASIN = Some v ->
  match v with
  | JNull | JBool _ | JInt _ | JFloat _ => True
  | _ => False
  end ->
  JoinWithLabelsFn.process json_example labels_by_id = Ok [].
Proof.
  intros Hv Hscalar. unfold JoinWithLabelsFn.process, dict_get.
  rewrite Hv. simpl. by destruct v.
Qed.

(** C5, as amended.  The join looks up the record's [asin], or the empty
    string when the record has no [asin]; it yields nothing, and raises
    nothing, when the index has no entry for that key or the entry is an
    empty label, and otherwise yields the record paired with a copy of the
    label. *)
Theorem join_by_asin (json_example : JsonObject)
    (labels_by_id : gmap pystr JsonObject) (asin : pystr) :
  json_example !! _ASIN = Some (JStr asin)
  \/ (json_example !! _ASIN = None /\ asin = str "") ->
  (labels_by_id !! asin = None ->
   JoinWithLabelsFn.process json_example labels_by_id = Ok [])
  /\ (forall labels, labels_by_id !! asin = Some labels ->
        (labels = ∅ ->
         JoinWithLabelsFn.process json_example labels_by_id = Ok [])
        /\ (labels <> ∅ ->
            JoinWithLabelsFn.process json_example labels_by_id
            = Ok [(json_example, labels)])).
Proof.
  intros Hkey.
  assert (Hget : dict_get json_example _ASIN (JStr (str "")) = JStr asin).
  { unfold dict_get. by destruct Hkey as [->|[-> ->]]. }
  unfold JoinWithLabelsFn.process. rewrite Hget. split.
  - by intros ->.
  - intros labels ->. split.
    + intros ->. done.
    + intros Hne. rewrite bool_decide_eq_false_2; [done|].
      by rewrite size_zero_empty.
Qed.

Lemma join_by_asin_witness :
  JoinWithLabelsFn.process scenario_A_record scenario_A_index
  = Ok [(scenario_A_record, scenario_A_label)].
Proof.
  refine (proj2 (proj2 (join_by_asin scenario_A_record scenario_A_index
                          (str "X1") _) scenario_A_label _) _).
  - left. vm_compute. reflexivity.
  - vm_compute. reflexivity.
  - intros Hempty. apply (f_equal size) in Hempty. vm_compute in Hempty.
    discriminate.
Defined.

(** C5, the counterexample: a record without [asin] is joined with the label
    of the empty identifier instead of being dropped. *)
Lemma join_missing_asin_not_dropped :
  record_without_asin !! _ASIN = None
  /\ JoinWithLabelsFn.process record_without_asin index_with_empty_id
     = Ok [(record_without_asin, label_of_empty_id)]
  /\ JoinWithLabelsFn.process record_without_asin index_with_empty_id <> Ok [].
Proof.
  assert (H : JoinWithLabelsFn.process record_without_asin index_with_empty_id
              = Ok [(record_without_asin, label_of_empty_id)])
    by (vm_compute; reflexivity).
  split; [vm_compute; reflexivity|]. split; [exact H|].
  rewrite H. discriminate.
Qed.

(** An [asin] that is a list cannot be hashed: the join raises. *)
Example join_unhashable_asin :
  JoinWithLabelsFn.process {[ _ASIN := JList [JStr (str "X1")] ]}
    scenario_A_index
  = Raise TypeError.
Proof. vm_compute. reflexivity. Qed.

(** ** The flattening of the sources *)

Section Flatten.

Import ConvertSourcesFn.

Lemma paragraphs_of_strings source texts :
  forallb is_JStr texts = true ->
  paragraphs_of source texts
  = Ok (flat_map
          (fun j =>
             match j with
             | JStr s =>
                 match strip s with
                 | [] => []
                 | _ :: _ => [{| text := strip s; source := source |}]
                 end
             | _ => []
             end) texts).
Proof.
  induction texts as [|j texts IH]; [done|].
  simpl. intros [Hj Htexts]%andb_prop.
  destruct j; try discriminate. rewrite IH by done. simpl.
  by destruct (strip s).
Qed.

Lemma _create_paragraphs_candidates source json_example :
  _create_paragraphs source json_example
  = paragraphs_of source (candidates json_example source).
Proof.
  unfold _create_paragraphs, candidates, dict_get.
  destruct (json_example !! source) as [[]|]; done.
Qed.

Lemma chain_sources_strings json_example sources :
  (forall source, In source sources ->
     forallb is_JStr (candidates json_example source) = true) ->
  chain_sources sources json_example
  = Ok (flat_map (spec_paragraphs json_example) sources).
Proof.
  induction sources as [|source sources IH]; intros Hstr; [done|].
  simpl. rewrite _create_paragraphs_candidates.
  rewrite paragraphs_of_strings by (apply Hstr; by left).
  simpl. rewrite IH by (intros; apply Hstr; by right). done.
Qed.

Lemma spec_paragraphs_In json_example field p :
  In p (spec_paragraphs json_example field) ->
  field = source p
  /\ text p <> []
  /\ exists s, In (JStr s) (candidates json_example field)
               /\ text p = strip s.
Proof.
  unfold spec_paragraphs. rewrite in_flat_map.
  intros (j & Hj & Hp). destruct j; try destruct Hp.
  destruct (strip s) eqn:Hs; [destruct Hp|].
  destruct Hp as [<-|[]]. simpl.
  split; [done|]. split; [done|]. exists s. by rewrite Hs.
Qed.


End Flatten.



(** C10. The fields of the label record overwrite the like-named keys of
    the flattening result; a label record with a field [paragraphs] replaces
    the list of flattened paragraphs by its own value. *)
Theorem labels_overwrite_paragraphs :
  (forall (json_example labels out : JsonObject) key value,
      ConvertSourcesFn.process (json_example, labels) = Ok [out] ->
      labels !! key = Some value ->
      out !! key = Some value)
  /\ exists out,
       label_with_paragraphs !! str "paragraphs"
       = Some (JStr (str "from the label"))
       /\ ConvertSourcesFn.chain_sources _SOURCES scenario_A_record
          = Ok scenario_A_paragraphs
       /\ ConvertSourcesFn.process (scenario_A_record, label_with_paragraphs)
          = Ok [out]
       /\ out !! str "paragraphs" = Some (JStr (str "from the label"))
       /\ out !! str "paragraphs"
          <> Some (JList (List.map Paragraph_json scenario_A_paragraphs)).
Proof.
  split.
  - intros json_example labels out key value Hout Hkey.
    unfold ConvertSourcesFn.process in Hout.
    destruct (ConvertSourcesFn.chain_sources _ _) as [paragraphs|];
      [|discriminate].
    simpl in Hout. injection Hout as <-.
    unfold dict_update, deepcopy. by apply lookup_union_Some_l.
  - eexists. split; [vm_compute; reflexivity|].
    split; [vm_compute; reflexivity|].
    split; [vm_compute; reflexivity|].
    split; [vm_compute; reflexivity|].
    vm_compute. discriminate.
Qed.

(** ** The cleaner on the parser model *)

(** Scenario A, stage by stage. *)
Example scenario_A :
  JoinWithLabelsFn.process scenario_A_record scenario_A_index
  = Ok [(scenario_A_record, scenario_A_label)]
  /\ (exists d,
        ConvertSourcesFn.process (scenario_A_record, scenario_A_label) = Ok [d]
        /\ Document_of_dict d
           = Some {| doc_id := str "X1";
                     doc_category := JStr (str "c");
                     doc_paragraphs := scenario_A_paragraphs;
                     doc_attributes := JDict ∅ |})
  /\ CleanParagraphsFn.process HtmlParser.BeautifulSoup
       {| doc_id := str "X1";
          doc_category := JStr (str "c");
          doc_paragraphs := scenario_A_paragraphs;
          doc_attributes := JDict ∅ |}
     = Ok [scenario_A_document].
Proof.
  split; [vm_compute; reflexivity|]. split; [|vm_compute; reflexivity].
  eexists. split; vm_compute; reflexivity.
Qed.

(** Scenario B: the malformed title is dropped and with it the document. *)
Example scenario_B :
  CleanParagraphsFn.process HtmlParser.BeautifulSoup scenario_B_document = Ok [].
Proof. vm_compute. reflexivity. Qed.

(** C1, at a failing input.  The chain checks the text before the last
    recoding and emits the text after it.  A title that is one emoji, written
    as the two numeric references of its surrogate pair, reaches the checks
    as two lone surrogates, passes them, and is emitted with an empty text,
    with any parser that reads the references the way Beautiful Soup does. *)
Theorem emitted_text_not_checked (BeautifulSoup : pystr -> list node) :
  BeautifulSoup (str "&#55357;&#56832;")
  = [NavigableString [0xD83D; 0xDE00]%N] ->
  CleanParagraphsFn.process BeautifulSoup emoji_document
  = Ok [{| doc_id := str "X1";
           doc_category := JStr (str "c");
           doc_paragraphs := [{| text := []; source := str "title" |}];
           doc_attributes := JDict ∅ |}].
Proof.
  intros Hparse.
  rewrite (process_parse BeautifulSoup HtmlParser.BeautifulSoup).
  - vm_compute. reflexivity.
  - constructor; [|constructor].
    change (BeautifulSoup (str "&#55357;&#56832;")
            = HtmlParser.BeautifulSoup (str "&#55357;&#56832;")).
    rewrite Hparse. vm_compute. reflexivity.
Qed.

Lemma emitted_text_not_checked_witness :
  HtmlParser.soup_of (text emoji_title)
  = Some [NavigableString [0xD83D; 0xDE00]%N]
  /\ CleanParagraphsFn.process HtmlParser.BeautifulSoup emoji_document
     = Ok [{| doc_id := str "X1";
              doc_category := JStr (str "c");
              doc_paragraphs := [{| text := []; source := str "title" |}];
              doc_attributes := JDict ∅ |}].
Proof.
  split; [vm_compute; reflexivity|].
  apply (emitted_text_not_checked HtmlParser.BeautifulSoup).
  vm_compute. reflexivity.
Defined.

(** A reference to a surrogate inside [javascript:] hides the marker from
    the detector and leaves it in the emitted text. *)
Example emitted_text_with_marker :
  CleanParagraphsFn.process HtmlParser.BeautifulSoup split_marker_document
  = Ok [{| doc_id := str "X1";
           doc_category := JStr (str "c");
           doc_paragraphs :=
             [{| text := str "Lamp"; source := str "title" |};
              {| text := str "javascript:void(0)";
                 source := str "description" |}];
           doc_attributes := JDict ∅ |}]
  /\ is_html (str "javascript:void(0)") = true.
Proof. split; vm_compute; reflexivity. Qed.

(** With any parser that decodes [&amp;], markup stripping returns [&]. *)
Lemma remove_tags_decodes_amp (BeautifulSoup : pystr -> list node) :
  BeautifulSoup (str "&amp;") = [NavigableString (str "&")] ->
  remove_tags BeautifulSoup (str "&amp;") = str "&".
Proof. intros Hparse. unfold remove_tags. rewrite Hparse. reflexivity. Qed.

(** C7, the counterexample: the parse of [&amp;] finds no tag, and markup
    stripping returns [&], not the trimmed input. *)
Lemma remove_tags_decodes_references :
  HtmlParser.soup_of (str "&amp;") = Some [NavigableString (str "&")]
  /\ no_tags (HtmlParser.BeautifulSoup (str "&amp;")) = true
  /\ remove_tags HtmlParser.BeautifulSoup (str "&amp;") = str "&"
  /\ remove_tags HtmlParser.BeautifulSoup (str "&amp;") <> strip (str "&amp;").
Proof.
  split; [vm_compute; reflexivity|]. split; [vm_compute; reflexivity|].
  split; [vm_compute; reflexivity|]. vm_compute. discriminate.
Qed.

Lemma remove_tags_plain_text_witness :
  HtmlParser.BeautifulSoup (str " Hello  World ")
  = [NavigableString (str " Hello  World ")]
  /\ remove_tags HtmlParser.BeautifulSoup (str " Hello  World ")
     = str "Hello  World".
Proof.
  assert (H : HtmlParser.BeautifulSoup (str " Hello  World ")
              = [NavigableString (str " Hello  World ")])
    by (vm_compute; reflexivity).
  split; [exact H|].
  exact (remove_tags_plain_text HtmlParser.BeautifulSoup
           (str " Hello  World ") (str " Hello  World ") H eq_refl).
Defined.

(** C8, the counterexample: a description escaped twice survives the chain
    as [&amp;], and cleaning that text again gives [&]. *)
Lemma cleaning_again_changes_text :
  CleanParagraphsFn.clean_paragraph HtmlParser.BeautifulSoup escaped_twice
  = Ok (Some {| text := str "&amp;"; source := _DESCRIPTION |})
  /\ CleanParagraphsFn.clean_paragraph HtmlParser.BeautifulSoup
       {| text := str "&amp;"; source := _DESCRIPTION |}
     = Ok (Some {| text := str "&"; source := _DESCRIPTION |})
  /\ str "&" <> str "&amp;".
Proof.
  split; [vm_compute; reflexivity|]. split; [vm_compute; reflexivity|].
  vm_compute. discriminate.
Qed.

(** A surviving title can also be dropped when cleaned again: the first
    recoding joins [get] and [Time] after the filter has looked. *)
Example cleaning_again_drops_title :
  CleanParagraphsFn.clean_paragraph HtmlParser.BeautifulSoup split_getTime_title
  = Ok (Some {| text := str "getTime"; source := _TITLE |})
  /\ CleanParagraphsFn.clean_paragraph HtmlParser.BeautifulSoup
       {| text := str "getTime"; source := _TITLE |}
     = Ok None.
Proof. split; vm_compute; reflexivity. Qed.

Lemma clean_paragraph_again_witness :
  CleanParagraphsFn.clean_paragraph HtmlParser.BeautifulSoup plain_title
  = Ok (Some {| text := str "Hello World"; source := _TITLE |})
  /\ CleanParagraphsFn.clean_paragraph HtmlParser.BeautifulSoup
       {| text := str "Hello World"; source := _TITLE |}
     = Ok (Some {| text := str "Hello World"; source := _TITLE |}).
Proof.
  assert (H : CleanParagraphsFn.clean_paragraph HtmlParser.BeautifulSoup
                plain_title
              = Ok (Some {| text := str "Hello World"; source := _TITLE |}))
    by (vm_compute; reflexivity).
  split; [exact H|].
  refine (proj2 (clean_paragraph_again HtmlParser.BeautifulSoup plain_title
                   _ H _) _ _).
  - vm_compute. repeat constructor.
  - vm_compute. reflexivity.
  - intros _. vm_compute. reflexivity.
Defined.

(** ** The counters *)

Section CounterFacts.

Variable BeautifulSoup : pystr -> list node.

Local Abbreviation checked := (checked_text BeautifulSoup).

Ltac count_num :=
  unfold inc; repeat match goal with b : bool |- _ => destruct b end;
  simpl; repeat case_decide; try done; lia.

Ltac count_branch last :=
  do 2 eexists; split; [reflexivity|]; split; [reflexivity|];
  split; [count_num|]; split; [count_num|]; split; [count_num|];
  split; [count_num|];
  split; [let k := fresh "k" in intros k; destruct k; count_num | last].

(** One round of the loop: what the plain chain returns, and how the
    counters move. *)
Lemma counting_clean_paragraph (m : Metrics) (p : Paragraph) :
  exists m' r,
    CleanParagraphsFn_counting.clean_paragraph BeautifulSoup m p = Ok (m', r)
    /\ CleanParagraphsFn.clean_paragraph BeautifulSoup p = Ok r
    /\ m' _num_paragraph = S (m _num_paragraph)
    /\ m' _no_title = m _no_title
    /\ m' _num_output_documents = m _num_output_documents
    /\ (m' _unformatted_title + m' _whitespace_removed + m' _html_after_clean
        + m' _css_removed + match r with Some _ => 1 | None => 0 end
        = m _unformatted_title + m _whitespace_removed + m _html_after_clean
          + m _css_removed + 1)%nat
    /\ (forall k, (m k <= m' k)%nat)
    /\ (m' _unicode_issue_after_clean = m _unicode_issue_after_clean ->
        forall q, r = Some q -> text q = checked p).
Proof.
  unfold CleanParagraphsFn_counting.clean_paragraph,
    CleanParagraphsFn.clean_paragraph.
  fold (checked p).
  generalize (bool_decide (utf8_ignore_roundtrip (text p) <> text p)) as b1.
  generalize (bool_decide
                (remove_tags BeautifulSoup (utf8_ignore_roundtrip (text p))
                 <> utf8_ignore_roundtrip (text p))) as b2.
  intros b2 b1.
  destruct (bool_decide (source p = str "title")
            && contains (str "getTime") (text p)).
  { count_branch ltac:(by intros _ q [=]). }
  destruct (bool_decide_reflect (checked p = [])) as [Hnil|Hnil].
  { count_branch ltac:(by intros _ q [=]). }
  destruct (is_html (checked p)).
  { count_branch ltac:(by intros _ q [=]). }
  destruct (is_css_total _ (checked_text_tokens BeautifulSoup p Hnil))
    as [drop ->].
  simpl. destruct drop.
  { count_branch ltac:(by intros _ q [=]). }
  destruct (bool_decide_reflect
              (utf8_ignore_roundtrip (checked p) <> checked p)) as [Hne|Heq].
  - count_branch ltac:(intros Hsame; exfalso; revert Hsame; count_num).
  - apply dec_stable in Heq.
    count_branch ltac:(by intros _ q [= <-]).
Qed.

(** The loop: what the plain chain returns, and how the counters move. *)
Lemma counting_clean_paragraphs (ps : list Paragraph) : forall m : Metrics,
  exists m' survivors,
    CleanParagraphsFn_counting.clean_paragraphs BeautifulSoup m ps
    = Ok (m', survivors)
    /\ CleanParagraphsFn.clean_paragraphs BeautifulSoup ps = Ok survivors
    /\ m' _num_paragraph = (m _num_paragraph + List.length ps)%nat
    /\ m' _no_title = m _no_title
    /\ m' _num_output_documents = m _num_output_documents
    /\ (m' _unformatted_title + m' _whitespace_removed + m' _html_after_clean
        + m' _css_removed + List.length survivors
        = m _unformatted_title + m _whitespace_removed + m _html_after_clean
          + m _css_removed + List.length ps)%nat
    /\ (forall k, (m k <= m' k)%nat)
    /\ (m' _unicode_issue_after_clean = m _unicode_issue_after_clean ->
        Forall (fun q => exists p,
                  In p ps
                  /\ CleanParagraphsFn.clean_paragraph BeautifulSoup p
                     = Ok (Some q)
                  /\ text q = checked p) survivors).
Proof.
  induction ps as [|p ps IH]; intros m.
  { exists m, []. repeat split; simpl; try done; lia. }
  destruct (counting_clean_paragraph m p)
    as (m1 & r & Hc & Hp & Hn & Ht & Ho & Hd & Hmono & Hafter).
  destruct (IH m1) as (m2 & rest & Hc2 & Hp2 & Hn2 & Ht2 & Ho2 & Hd2 & Hmono2
                       & Hafter2).
  exists m2, (match r with Some q => q :: rest | None => rest end).
  split; [simpl; rewrite Hc; simpl; rewrite Hc2; done|].
  split; [simpl; rewrite Hp; simpl; rewrite Hp2; done|].
  split; [simpl; lia|]. split; [congruence|]. split; [congruence|].
  split; [destruct r; simpl in *; lia|].
  split; [intros k; specialize (Hmono k); specialize (Hmono2 k); lia|].
  intros Hsame.
  pose proof (Hmono _unicode_issue_after_clean).
  pose proof (Hmono2 _unicode_issue_after_clean).
  assert (Hrest : Forall (fun q => exists p0,
                    In p0 (p :: ps)
                    /\ CleanParagraphsFn.clean_paragraph BeautifulSoup p0
                       = Ok (Some q)
                    /\ text q = checked p0) rest).
  { eapply Forall_impl; [apply Hafter2; lia|].
    intros q (p0 & ? & ? & ?). exists p0. split; [by right|done]. }
  destruct r as [q|]; [|done].
  constructor; [|done]. exists p. split; [by left|]. split; [done|].
  apply Hafter; [lia|done].
Qed.

(** X1. The counters only observe: with any starting values, [process]
    with its counters yields exactly the Documents of the chain without
    them, and no counter ever decreases. *)
Theorem counters_observe_only (m : Metrics) (json_example : Document) :
  exists m' out,
    CleanParagraphsFn_counting.process BeautifulSoup m json_example
    = Ok (m', out)
    /\ CleanParagraphsFn.process BeautifulSoup json_example = Ok out
    /\ forall k, (m k <= m' k)%nat.
Proof.
  destruct (counting_clean_paragraphs (doc_paragraphs json_example) m)
    as (m1 & survivors & Hc & Hp & _ & _ & _ & _ & Hmono & _).
  unfold CleanParagraphsFn_counting.process, CleanParagraphsFn.process.
  rewrite Hc, Hp. simpl. destruct (CleanParagraphsFn.has_title survivors).
  - do 2 eexists. split; [reflexivity|]. split; [reflexivity|].
    intros k. specialize (Hmono k). unfold inc. case_decide; lia.
  - do 2 eexists. split; [reflexivity|]. split; [reflexivity|].
    intros k. specialize (Hmono k). unfold inc. case_decide; lia.
Qed.

(** X2. Every paragraph is accounted for: [num-paragraphs] grows by the
    number of input paragraphs, and that number is the growth of the four
    drop counters plus the number of paragraphs that survive. *)
Theorem paragraph_counters_account (m : Metrics) (json_example : Document) :
  exists m' out survivors,
    CleanParagraphsFn_counting.process BeautifulSoup m json_example
    = Ok (m', out)
    /\ CleanParagraphsFn.clean_paragraphs BeautifulSoup
         (doc_paragraphs json_example) = Ok survivors
    /\ m' _num_paragraph
       = (m _num_paragraph + List.length (doc_paragraphs json_example))%nat
    /\ (m' _unformatted_title + m' _whitespace_removed
        + m' _html_after_clean + m' _css_removed + List.length survivors
        = m _unformatted_title + m _whitespace_removed
          + m _html_after_clean + m _css_removed
          + List.length (doc_paragraphs json_example))%nat.
Proof.
  destruct (counting_clean_paragraphs (doc_paragraphs json_example) m)
    as (m1 & survivors & Hc & Hp & Hn & _ & _ & Hd & _ & _).
  unfold CleanParagraphsFn_counting.process. rewrite Hc. simpl.
  destruct (CleanParagraphsFn.has_title survivors);
    do 3 eexists; (split; [reflexivity|]); (split; [exact Hp|]);
    unfold inc; simpl; split; lia.
Qed.


(** X4. When [num-paragraph-unicode-issue-after-all-clean] does not move,
    the emitted text of every paragraph is the text that was checked: it is
    not empty, holds no residual-HTML marker and is not CSS noise. *)
Theorem no_unicode_issue_checked (m m' : Metrics) (json_example d : Document) :
  CleanParagraphsFn_counting.process BeautifulSoup m json_example
  = Ok (m', [d]) ->
  m' _unicode_issue_after_clean = m _unicode_issue_after_clean ->
  forall q, In q (doc_paragraphs d) ->
    text q <> [] /\ is_html (text q) = false /\ is_css (text q) = Ok false.
Proof.
  destruct (counting_clean_paragraphs (doc_paragraphs json_example) m)
    as (m1 & survivors & Hc & _ & _ & _ & _ & _ & _ & Hafter).
  unfold CleanParagraphsFn_counting.process. rewrite Hc. simpl.
  destruct (CleanParagraphsFn.has_title survivors); [|discriminate].
  intros [= <- <-] Hsame q Hq. simpl in Hq.
  assert (Hm1 : m1 _unicode_issue_after_clean = m _unicode_issue_after_clean).
  { revert Hsame. unfold inc. by case_decide. }
  specialize (Hafter Hm1). rewrite Forall_forall in Hafter.
  apply list_elem_of_In in Hq.
  destruct (Hafter q Hq) as (p & _ & Hp & ->).
  by apply clean_paragraph_Some in Hp as (_ & ? & ? & ? & _).
Qed.

End CounterFacts.

(** ** Python strings: substrings and trimming *)

Section MoreStrings.

Implicit Types (s t sub pre post : pystr).

Lemma startswith_spec prefix : forall s,
  startswith s prefix = true <-> exists post, s = prefix ++ post.
Proof.
  induction prefix as [|c prefix IH]; intros [|d s]; simpl.
  - split; [by exists []|done].
  - split; [by exists (d :: s)|done].
  - split; [done|]. by intros [post ?].
  - rewrite andb_true_iff, N.eqb_eq, IH. split.
    + intros [-> [post ->]]. by exists post.
    + intros [post [= -> ->]]. split; [done|]. by exists post.
Qed.

Lemma contains_spec sub s :
  contains sub s = true <-> exists pre post, s = pre ++ sub ++ post.
Proof.
  induction s as [|c s IH].
  - change (contains sub []) with (startswith [] sub || false).
    rewrite orb_false_r, startswith_spec. split.
    + intros [post ->]. by exists [], post.
    + intros (pre & post & H). symmetry in H.
      apply app_eq_nil in H as [-> H]. exists post. done.
  - change (contains sub (c :: s))
      with (startswith (c :: s) sub || contains sub s).
    rewrite orb_true_iff, startswith_spec, IH. split.
    + intros [[post ->]|(pre & post & ->)].
      * by exists [], post.
      * by exists (c :: pre), post.
    + intros ([|d pre] & post & H).
      * left. by exists post.
      * right. injection H as -> ->. by exists pre, post.
Qed.

Lemma lstrip_head s :
  match lstrip s with
  | [] => True
  | c :: _ => isspace c = false
  end.
Proof.
  induction s as [|c s IH]; [done|]. simpl.
  destruct (isspace c) eqn:Hc; [done|]. exact Hc.
Qed.

Lemma lstrip_idempotent s : lstrip (lstrip s) = lstrip s.
Proof.
  pose proof (lstrip_head s) as Hhead.
  destruct (lstrip s) as [|c t]; [done|]. simpl. by rewrite Hhead.
Qed.

Lemma lstrip_snoc s c :
  isspace c = false -> exists t, lstrip (s ++ [c]) = t ++ [c].
Proof.
  intros Hc. induction s as [|d s IH]; simpl.
  - rewrite Hc. by exists [].
  - destruct (isspace d); [done|]. by exists (d :: s).
Qed.

Lemma lstrip_nil s : lstrip s = [] <-> forallb isspace s = true.
Proof.
  induction s as [|c s IH]; [done|]. simpl.
  destruct (isspace c); [done|]. split; discriminate.
Qed.

Lemma forallb_rev (f : N -> bool) s : forallb f (rev s) = forallb f s.
Proof.
  induction s as [|c s IH]; [done|]. simpl.
  rewrite forallb_app, IH. simpl. rewrite andb_true_r. apply andb_comm.
Qed.

Lemma rstrip_idempotent s : rstrip (rstrip s) = rstrip s.
Proof. unfold rstrip. by rewrite rev_involutive, lstrip_idempotent. Qed.

Lemma strip_lstrip s : lstrip (strip s) = strip s.
Proof.
  unfold strip, rstrip. pose proof (lstrip_head s) as Hhead.
  destruct (lstrip s) as [|c x]; [done|]. simpl rev.
  destruct (lstrip_snoc (rev x) c Hhead) as [t ->].
  rewrite rev_app_distr. simpl. by rewrite Hhead.
Qed.

(** [strip] twice is [strip] once. *)
Lemma strip_idempotent s : strip (strip s) = strip s.
Proof.
  unfold strip at 1. rewrite strip_lstrip. unfold strip.
  apply rstrip_idempotent.
Qed.

(** [strip] gives the empty string on white space alone, and only then. *)
Lemma strip_nil s : strip s = [] <-> forallb isspace s = true.
Proof.
  rewrite <- lstrip_nil. unfold strip, rstrip. split.
  - intros Hs. apply (f_equal (@rev N)) in Hs.
    rewrite rev_involutive in Hs. simpl in Hs.
    apply lstrip_nil in Hs. rewrite forallb_rev in Hs.
    apply lstrip_nil in Hs. by rewrite lstrip_idempotent in Hs.
  - by intros ->.
Qed.

Lemma lstrip_head_not_space s : head_not_space s -> lstrip s = s.
Proof. destruct s as [|c s]; [done|]. simpl. by intros ->. Qed.

Lemma strip_fixed s :
  head_not_space s -> head_not_space (rev s) -> strip s = s.
Proof.
  intros Hs Hrev. unfold strip, rstrip.
  rewrite (lstrip_head_not_space s Hs), (lstrip_head_not_space _ Hrev).
  apply rev_involutive.
Qed.

Lemma split_from_nil s : forall cur,
  split_from cur s = [] <-> cur = [] /\ forallb isspace s = true.
Proof.
  induction s as [|c s IH]; intros cur; simpl.
  - destruct cur; split; try done. by intros [? _].
  - destruct (isspace c) eqn:Hc; simpl.
    + destruct cur; [apply IH|]. split; [done|]. by intros [? _].
    + rewrite IH. split; [|by intros [_ ?]].
      intros [Hcur _]. by destruct cur.
Qed.

Lemma join_tokens_head ts :
  Forall is_token ts -> head_not_space (join (str " ") ts).
Proof.
  destruct 1 as [|t ts [Hne Ht] _]; [done|].
  destruct t as [|c t]; [done|]. inversion Ht; subst.
  by destruct ts.
Qed.

Lemma join_tokens_last ts :
  Forall is_token ts -> head_not_space (rev (join (str " ") ts)).
Proof.
  induction 1 as [|t ts [Hne Ht] Hts IH]; [done|].
  destruct ts as [|t' ts].
  - simpl. apply Forall_rev in Ht.
    destruct (rev t) as [|c r] eqn:Hr; [done|]. by inversion Ht.
  - change (join (str " ") (t :: t' :: ts))
      with (t ++ str " " ++ join (str " ") (t' :: ts)).
    rewrite !rev_app_distr.
    destruct (rev (join (str " ") (t' :: ts))) as [|c r] eqn:Hr; [|done].
    apply (f_equal (@rev N)) in Hr. rewrite rev_involutive in Hr.
    apply join_tokens_nil in Hr; done.
Qed.

Lemma join_tokens_spaces ts :
  Forall is_token ts ->
  Forall (fun c => isspace c = true -> c = 32%N) (join (str " ") ts).
Proof.
  induction 1 as [|t ts [_ Ht] _ IH]; [constructor|].
  assert (Htok : Forall (fun c => isspace c = true -> c = 32%N) t).
  { eapply Forall_impl; [exact Ht|]. intros c Hc. by rewrite Hc. }
  destruct ts as [|t' ts]; [done|].
  change (join (str " ") (t :: t' :: ts))
    with (t ++ 32%N :: join (str " ") (t' :: ts)).
  apply Forall_app. split; [done|]. by constructor.
Qed.

End MoreStrings.

(** X5. The whitespace clean keeps the tokens of the text and nothing
    else: its result has the same tokens, is left alone by a second
    whitespace clean and by [strip], holds no white space but single spaces,
    and is empty exactly when the text is white space alone. *)
Theorem whitespace_clean_shape (s : pystr) :
  split (ws_normalize s) = split s
  /\ ws_normalize (ws_normalize s) = ws_normalize s
  /\ strip (ws_normalize s) = ws_normalize s
  /\ Forall (fun c => isspace c = true -> c = 32%N) (ws_normalize s)
  /\ (ws_normalize s = [] <-> forallb isspace s = true).
Proof.
  pose proof (split_tokens s) as Htok.
  split; [apply split_ws_normalize|].
  split; [apply ws_normalize_idempotent|].
  split; [apply strip_fixed;
          [by apply join_tokens_head | by apply join_tokens_last]|].
  split; [by apply join_tokens_spaces|].
  unfold ws_normalize. split.
  - intros Hnil%join_tokens_nil; [|done].
    by apply split_from_nil in Hnil as [_ ?].
  - intros Hs. by rewrite (split_whitespace s Hs).
Qed.

(** X6. [is_html] answers [True] exactly when the text holds one of the
    six markers as a substring; so a text that holds a flagged text is
    flagged. *)
Theorem is_html_markers (text0 : pystr) :
  (is_html text0 = true <->
   exists marker pre post,
     In marker [str "<a href"; str "javascript:"; str "background-color:";
                str "background-image:"; str " li:"; str ".aloha"]
     /\ text0 = pre ++ marker ++ post)
  /\ (forall pre post,
        is_html text0 = true -> is_html (pre ++ text0 ++ post) = true).
Proof.
  assert (Hiff : forall t,
    is_html t = true <->
    exists marker pre post,
      In marker [str "<a href"; str "javascript:"; str "background-color:";
                 str "background-image:"; str " li:"; str ".aloha"]
      /\ t = pre ++ marker ++ post).
  { intros t.
    assert (Hex : is_html t
                  = existsb (fun marker => contains marker t)
                      [str "<a href"; str "javascript:";
                       str "background-color:"; str "background-image:";
                       str " li:"; str ".aloha"]).
    { unfold is_html, existsb.
      repeat (destruct (contains _ t); [reflexivity|]). reflexivity. }
    rewrite Hex, existsb_exists. split.
    - intros (marker & Hin & (pre & post & ->)%contains_spec).
      by exists marker, pre, post.
    - intros (marker & pre & post & Hin & ->). exists marker.
      split; [done|]. apply contains_spec. by exists pre, post. }
  split; [apply Hiff|].
  intros pre post (marker & pre' & post' & Hin & ->)%Hiff. apply Hiff.
  exists marker, (pre ++ pre'), (post' ++ post). split; [done|].
  by rewrite <- !app_assoc.
Qed.

(** ** More on the flattening of the sources *)

Section MoreFlatten.

Import ConvertSourcesFn.

Lemma paragraphs_of_raise source texts :
  forallb is_JStr texts = false ->
  paragraphs_of source texts = Raise AttributeError.
Proof.
  induction texts as [|j texts IH]; [done|]. simpl.
  destruct j; try done. simpl. intros Htexts. by rewrite IH.
Qed.

Lemma chain_sources_raise json_example sources :
  (exists source, In source sources
     /\ forallb is_JStr (candidates json_example source) = false) ->
  chain_sources sources json_example = Raise AttributeError.
Proof.
  induction sources as [|source sources IH]; intros (bad & Hin & Hbad).
  { destruct Hin. }
  simpl. rewrite _create_paragraphs_candidates.
  destruct (forallb is_JStr (candidates json_example source)) eqn:Hstr.
  - rewrite paragraphs_of_strings by done. simpl.
    destruct Hin as [->|Hin]; [congruence|].
    rewrite IH by eauto. done.
  - by rewrite paragraphs_of_raise.
Qed.

Lemma all_strings_or_not json_example sources :
  (forall source, In source sources ->
     forallb is_JStr (candidates json_example source) = true)
  \/ (exists source, In source sources
        /\ forallb is_JStr (candidates json_example source) = false).
Proof.
  induction sources as [|source sources [IH|(bad & ? & ?)]].
  - left. by intros ? [].
  - destruct (forallb is_JStr (candidates json_example source)) eqn:Hstr.
    + left. intros ? [<-|?]; auto.
    + right. exists source. split; [by left|done].
  - right. exists bad. split; [by right|done].
Qed.

(** What [chain_sources] returns when it returns. *)
Lemma chain_sources_Ok json_example sources paragraphs :
  chain_sources sources json_example = Ok paragraphs ->
  paragraphs = flat_map (spec_paragraphs json_example) sources.
Proof.
  intros Hok. destruct (all_strings_or_not json_example sources) as [Hstr|Hbad].
  - rewrite chain_sources_strings in Hok by done. by injection Hok.
  - rewrite chain_sources_raise in Hok by done. discriminate.
Qed.

(** X7. The flattening raises exactly when one of the five source fields
    is a list that holds something other than a string, and what it raises
    then is [AttributeError]; it raises nothing else. *)
Theorem flatten_raises_iff (json_example labels : JsonObject) :
  (process (json_example, labels) = Raise AttributeError <->
   exists source, In source _SOURCES
     /\ forallb is_JStr (candidates json_example source) = false)
  /\ (forall e, process (json_example, labels) = Raise e -> e = AttributeError).
Proof.
  unfold process.
  destruct (all_strings_or_not json_example _SOURCES) as [Hstr|Hbad].
  - rewrite chain_sources_strings by done. simpl. split; [|done].
    split; [done|]. intros (source & Hin & Hfalse).
    rewrite Hstr in Hfalse by done. discriminate.
  - rewrite chain_sources_raise by done. simpl. split; [done|].
    by intros e [= <-].
Qed.

(** X8. Every flattened paragraph carries a trimmed text: it is not empty,
    it neither begins nor ends with white space, and [strip] leaves it as it
    is. *)
Theorem flattened_text_trimmed (json_example : JsonObject)
    (paragraphs : list Paragraph) (p : Paragraph) :
  chain_sources _SOURCES json_example = Ok paragraphs ->
  In p paragraphs ->
  text p <> []
  /\ strip (text p) = text p
  /\ head_not_space (text p)
  /\ head_not_space (rev (text p)).
Proof.
  intros ->%chain_sources_Ok (source & _ & Hp)%in_flat_map.
  apply spec_paragraphs_In in Hp as (_ & Hne & s & _ & Hs).
  rewrite Hs in *.
  split; [done|]. split; [apply strip_idempotent|]. split.
  - pose proof (lstrip_head (strip s)) as Hhead.
    by rewrite strip_lstrip in Hhead.
  - unfold strip, rstrip. rewrite rev_involutive. apply lstrip_head.
Qed.

(** X9. The flattened paragraphs come source by source, in the order
    [title, description, feature, price, brand]: the list is the
    concatenation of five groups, one for each source in that order, and
    every paragraph of a group carries the source of its group. *)
Theorem flattened_in_source_order (json_example : JsonObject)
    (paragraphs : list Paragraph) :
  chain_sources _SOURCES json_example = Ok paragraphs ->
  exists groups,
    paragraphs = concat groups
    /\ Forall2 (fun field group => Forall (fun p => source p = field) group)
         _SOURCES groups.
Proof.
  intros ->%chain_sources_Ok.
  exists (List.map (spec_paragraphs json_example) _SOURCES).
  split; [apply flat_map_concat_map|].
  generalize _SOURCES. intros sources.
  induction sources as [|field sources IH]; simpl; constructor; [|done].
  apply List.Forall_forall. intros p Hp.
  by apply spec_paragraphs_In in Hp as (-> & _).
Qed.

(** X10. The object that [process] yields has the keys of the label record
    and the key [paragraphs]; every other key holds the value of the label,
    and when the label has no field [paragraphs] that key holds the
    flattened paragraphs. *)
Theorem convert_output_keys (json_example labels out : JsonObject) :
  process (json_example, labels) = Ok [out] ->
  dom out = {[ str "paragraphs" ]} ∪ dom labels
  /\ (forall key, key <> str "paragraphs" -> out !! key = labels !! key)
  /\ (labels !! str "paragraphs" = None ->
      exists paragraphs,
        chain_sources _SOURCES json_example = Ok paragraphs
        /\ out !! str "paragraphs"
           = Some (JList (List.map Paragraph_json paragraphs))).
Proof.
  unfold process.
  destruct (chain_sources _SOURCES json_example) as [paragraphs|] eqn:Hps;
    [|discriminate].
  simpl. intros [= <-]. unfold dict_update, deepcopy. split; [|split].
  - rewrite dom_union_L, dom_singleton_L. apply (comm_L (∪)).
  - intros key Hkey. destruct (labels !! key) as [v|] eqn:Hv.
    + by apply lookup_union_Some_l.
    + apply lookup_union_None_2; [done|]. by apply lookup_singleton_ne.
  - intros Hnone. exists paragraphs. split; [done|].
    rewrite lookup_union_r by done. apply lookup_singleton_eq.
Qed.

End MoreFlatten.

(** ** From the flattening to the cleaner *)

Lemma Paragraph_of_json_Paragraph_json (p : Paragraph) :
  Paragraph_of_json (Paragraph_json p) = Some p.
Proof.
  unfold Paragraph_of_json, Paragraph_json.
  rewrite lookup_insert_eq.
  rewrite lookup_insert_ne by (vm_compute; discriminate).
  rewrite lookup_singleton_eq. by destruct p.
Qed.

Lemma mapM_Paragraph_of_json (ps : list Paragraph) :
  mapM Paragraph_of_json (List.map Paragraph_json ps) = Some ps.
Proof.
  induction ps as [|p ps IH]; [done|].
  change (mapM Paragraph_of_json (List.map Paragraph_json (p :: ps)))
    with (y ← Paragraph_of_json (Paragraph_json p);
          k ← mapM Paragraph_of_json (List.map Paragraph_json ps);
          mret (y :: k)).
  by rewrite Paragraph_of_json_Paragraph_json, IH.
Qed.

(** X11. The object that [ConvertSourcesFn] yields for a label with an
    identifier, a category and attributes, and without a field [paragraphs],
    has every key that [CleanParagraphsFn.process] subscripts: read that way
    it is the Document-shaped record with the fields of the label and the
    flattened paragraphs, text and source of each as they were written. *)
Theorem convert_output_readable (json_example labels out : JsonObject)
    (i : pystr) (c a : json) :
  ConvertSourcesFn.process (json_example, labels) = Ok [out] ->
  labels !! str "id" = Some (JStr i) ->
  labels !! str "category" = Some c ->
  labels !! str "attributes" = Some a ->
  labels !! str "paragraphs" = None ->
  exists paragraphs,
    ConvertSourcesFn.chain_sources _SOURCES json_example = Ok paragraphs
    /\ Document_of_dict out
       = Some {| doc_id := i; doc_category := c;
                 doc_paragraphs := paragraphs; doc_attributes := a |}.
Proof.
  unfold ConvertSourcesFn.process.
  destruct (ConvertSourcesFn.chain_sources _SOURCES json_example)
    as [paragraphs|]; [|discriminate].
  simpl. intros [= <-] Hi Hc Ha Hp. exists paragraphs. split; [done|].
  unfold Document_of_dict, dict_update, deepcopy.
  rewrite (lookup_union_Some_l _ _ _ _ Hi), (lookup_union_Some_l _ _ _ _ Hc),
    (lookup_union_Some_l _ _ _ _ Ha).
  rewrite lookup_union_r by done. rewrite lookup_singleton_eq.
  by rewrite mapM_Paragraph_of_json.
Qed.

(** ** More on the join *)

(** X12. The join raises exactly when the record's [asin] is a list or an
    object, and then it raises [TypeError]; when it returns, it yields at
    most one pair, made of the record itself and of the non-empty label
    that the index holds for the record's [asin]. *)
Theorem join_error_behaviour (json_example : JsonObject)
    (labels_by_id : gmap pystr JsonObject) :
  (forall e, JoinWithLabelsFn.process json_example labels_by_id = Raise e <->
     e = TypeError
     /\ exists v, json_example !! _ASIN = Some v
                  /\ match v with JList _ | JDict _ => True | _ => False end)
  /\ (forall out, JoinWithLabelsFn.process json_example labels_by_id = Ok out ->
        out = []
        \/ exists asin labels,
             out = [(json_example, labels)]
             /\ dict_get json_example _ASIN (JStr (str "")) = JStr asin
             /\ labels_by_id !! asin = Some labels
             /\ labels <> ∅).
Proof.
  unfold JoinWithLabelsFn.process, dict_get, deepcopy.
  destruct (json_example !! _ASIN) as [v|] eqn:Hv; simpl.
  - destruct v as [| | | |asin|l|d]; simpl.
    1-4: split; [intros e; split; [done|by intros (_ & v & [= <-] & ?)]
                |intros out [= <-]; by left].
    + split.
      * intros e. split; [|by intros (_ & v & [= <-] & ?)].
        destruct (labels_by_id !! asin); [|done]. by case_bool_decide.
      * intros out. destruct (labels_by_id !! asin) as [labels|] eqn:Hl;
          [|intros [= <-]; by left].
        case_bool_decide as Hsize; intros [= <-]; [by left|]. right.
        exists asin, labels. repeat split; try done.
        by rewrite <- size_zero_empty.
    + split; [|done]. intros e. split.
      * intros [= <-]. split; [done|]. by exists (JList l).
      * by intros [-> _].
    + split; [|done]. intros e. split.
      * intros [= <-]. split; [done|]. by exists (JDict d).
      * by intros [-> _].
  - split.
    + intros e. split; [|by intros (_ & v & ? & _)].
      destruct (labels_by_id !! str "") ; [|done]. by case_bool_decide.
    + intros out. destruct (labels_by_id !! str "") as [labels|] eqn:Hl;
        [|intros [= <-]; by left].
      case_bool_decide as Hsize; intros [= <-]; [by left|]. right.
      exists (str ""), labels. repeat split; try done.
      by rewrite <- size_zero_empty.
Qed.

(** ** More on the cleaning chain *)

Section MoreCleaner.

Import CleanParagraphsFn.

Variable BeautifulSoup : pystr -> list node.

Lemma clean_paragraphs_sources (ps : list Paragraph) : forall survivors,
  clean_paragraphs BeautifulSoup ps = Ok survivors ->
  sublist (source <$> survivors) (source <$> ps).
Proof.
  induction ps as [|p ps IH]; simpl; intros survivors.
  { intros [= <-]. constructor. }
  destruct (clean_paragraph_total BeautifulSoup p) as [r Hr]. rewrite Hr.
  destruct (clean_paragraphs_total BeautifulSoup ps) as [rest Hrest].
  rewrite Hrest. simpl. intros [= <-]. specialize (IH rest Hrest).
  destruct r as [q|]; [|by constructor].
  apply clean_paragraph_Some in Hr as (_ & _ & _ & _ & ->). simpl.
  by constructor.
Qed.

(** X13. The cleaner passes the document through: it yields at most one
    Document, with the identifier, category and attributes of its input;
    the paragraphs it keeps stand in the order of the input, each with the
    source it came with. *)
Theorem clean_passes_through (json_example : Document) :
  exists out,
    process BeautifulSoup json_example = Ok out
    /\ (out = []
        \/ exists d,
             out = [d]
             /\ doc_id d = doc_id json_example
             /\ doc_category d = doc_category json_example
             /\ doc_attributes d = doc_attributes json_example
             /\ sublist (source <$> doc_paragraphs d)
                  (source <$> doc_paragraphs json_example)).
Proof.
  unfold process.
  destruct (clean_paragraphs_total BeautifulSoup (doc_paragraphs json_example))
    as [survivors Hs].
  rewrite Hs. simpl. destruct (has_title survivors).
  - eexists. split; [reflexivity|]. right. eexists. split; [reflexivity|].
    simpl. repeat split. by apply clean_paragraphs_sources.
  - eexists. split; [reflexivity|]. by left.
Qed.

(** X14. A document all of whose title paragraphs hold the word [getTime]
    is dropped, whatever its other paragraphs are. *)
Theorem malformed_titles_drop_document (json_example : Document) :
  (forall p, In p (doc_paragraphs json_example) ->
     source p = str "title" -> contains (str "getTime") (text p) = true) ->
  process BeautifulSoup json_example = Ok [].
Proof.
  intros Htitles. unfold process.
  destruct (clean_paragraphs_total BeautifulSoup (doc_paragraphs json_example))
    as [survivors Hs].
  rewrite Hs. simpl.
  destruct (has_title survivors) eqn:Ht; [|done]. exfalso.
  apply has_title_spec in Ht as (q & Hq & Hsrc).
  destruct (clean_paragraphs_survivor BeautifulSoup _ _ _ Hs Hq)
    as (p & Hp & Hpq).
  apply clean_paragraph_Some in Hpq as (Hno & _ & _ & _ & ->).
  simpl in Hsrc. specialize (Hno Hsrc).
  rewrite (Htitles p Hp Hsrc) in Hno. discriminate.
Qed.

End MoreCleaner.

(** ** More on the de-duplication *)

Section MoreDedupe.

Context {A K : Type} `{Countable K} (key : A -> K).

Lemma head_group_of_elem k elements a :
  head (group_of key k elements) = Some a -> a ∈ elements /\ key a = k.
Proof.
  intros Ha%head_Some_elem_of. split; [|by apply (group_of_key key k elements)].
  by apply list_elem_of_In, filter_In in Ha as [?%list_elem_of_In _].
Qed.

Lemma head_group_of_NoDup elements a :
  NoDup (key <$> elements) -> a ∈ elements ->
  head (group_of key (key a) elements) = Some a.
Proof.
  induction elements as [|x elements IH]; intros Hnodup Ha.
  { by apply elem_of_nil in Ha. }
  rewrite fmap_cons in Hnodup. apply NoDup_cons in Hnodup as [Hx Hnodup].
  unfold group_of. simpl.
  apply elem_of_cons in Ha as [->|Ha].
  - by rewrite bool_decide_eq_true_2.
  - rewrite bool_decide_eq_false_2; [by apply IH|].
    intros Hkey. apply Hx. rewrite Hkey. by apply list_elem_of_fmap_2.
Qed.

(** Every key of the input has a first element, and that one is kept. *)
Lemma DedupeASIN_keys elements out :
  DedupeASIN key elements = Ok out ->
  (forall a, a ∈ out -> a ∈ elements)
  /\ (forall k, k ∈ (key <$> out) <-> k ∈ (key <$> elements)).
Proof.
  intros Hout.
  destruct (DedupeASIN_spec key elements) as (out' & Hout' & _ & Hin).
  rewrite Hout in Hout'. injection Hout' as <-.
  assert (Hsub : forall a, a ∈ out -> a ∈ elements).
  { intros a Ha%Hin. by apply head_group_of_elem in Ha as [? _]. }
  split; [done|]. intros k. split.
  - intros (a & -> & Ha)%list_elem_of_fmap. apply list_elem_of_fmap_2. auto.
  - intros (a & -> & Ha)%list_elem_of_fmap.
    destruct (group_of key (key a) elements) as [|a' g] eqn:Hg.
    + exfalso. assert (Ha' : a ∈ group_of key (key a) elements).
      { apply list_elem_of_In, filter_In. split; [by apply list_elem_of_In|].
        by apply bool_decide_eq_true. }
      rewrite Hg in Ha'. by apply elem_of_nil in Ha'.
    + assert (Hk : key a' = key a).
      { apply (group_of_key key (key a) elements). rewrite Hg. left. }
      apply list_elem_of_fmap. exists a'. split; [done|].
      apply Hin. by rewrite Hk, Hg.
Qed.

(** On elements with pairwise distinct keys nothing is lost. *)
Lemma DedupeASIN_NoDup elements :
  NoDup (key <$> elements) ->
  exists out, DedupeASIN key elements = Ok out /\ out ≡ₚ elements.
Proof.
  intros Hnodup.
  destruct (DedupeASIN_spec key elements) as (out & Hout & Hkeys & Hin).
  exists out. split; [done|].
  apply NoDup_Permutation.
  - by eapply NoDup_fmap_1.
  - by eapply NoDup_fmap_1.
  - intros a. rewrite Hin. split.
    + by intros [? _]%head_group_of_elem.
    + by apply head_group_of_NoDup.
Qed.

End MoreDedupe.

(** X15. Documents with pairwise distinct identifiers all pass the
    Deduplicator: its output is a rearrangement of its input. *)
Theorem dedupe_distinct_keeps_all (documents : list Document) :
  NoDup (doc_id <$> documents) ->
  exists out, DedupeASIN doc_id documents = Ok out /\ out ≡ₚ documents.
Proof. apply DedupeASIN_NoDup. Qed.

(** X16. The Deduplicator yields only Documents of its input, and as many
    as the input has distinct identifiers: that number is the count that
    [Count.Globally] writes to the statistics file. *)
Theorem dedupe_count (documents : list Document) :
  exists out,
    DedupeASIN doc_id documents = Ok out
    /\ (forall d, d ∈ out -> d ∈ documents)
    /\ List.length out
       = size (list_to_set (doc_id <$> documents) : gset pystr).
Proof.
  destruct (DedupeASIN_spec doc_id documents) as (out & Hout & Hnodup & _).
  destruct (DedupeASIN_keys doc_id documents out Hout) as [Hsub Hkeys].
  exists out. split; [done|]. split; [done|].
  replace (list_to_set (doc_id <$> documents) : gset pystr)
    with (list_to_set (doc_id <$> out) : gset pystr).
  - rewrite size_list_to_set by done. by rewrite length_fmap.
  - apply set_eq. intros k. rewrite !elem_of_list_to_set. apply Hkeys.
Qed.

(** X17. Running the Deduplicator on its own output changes nothing but,
    possibly, the order. *)
Theorem dedupe_idempotent (documents out : list Document) :
  DedupeASIN doc_id documents = Ok out ->
  exists out', DedupeASIN doc_id out = Ok out' /\ out' ≡ₚ out.
Proof.
  intros Hout.
  destruct (DedupeASIN_spec doc_id documents) as (out0 & Hout0 & Hnodup & _).
  rewrite Hout in Hout0. injection Hout0 as <-.
  by apply DedupeASIN_NoDup.
Qed.

(** ** More on the recoding and the detectors *)

Lemma filter_fixed (f : N -> bool) (s : pystr) :
  List.filter f s = s -> Forall (fun c => f c = true) s.
Proof.
  induction s as [|c s IH]; [constructor|]. simpl.
  destruct (f c) eqn:Hc.
  - intros [= Hs]. constructor; auto.
  - intros Hs. pose proof (filter_length_le f s) as Hlen.
    rewrite Hs in Hlen. simpl in Hlen. lia.
Qed.

(** X19. The "unicode clean" changes a text exactly when the text holds a
    lone surrogate; its result holds none, so a second pass changes
    nothing. *)
Theorem recoding_changes_iff_surrogate (s : pystr) :
  (utf8_ignore_roundtrip s = s <-> encodable s)
  /\ encodable (utf8_ignore_roundtrip s)
  /\ utf8_ignore_roundtrip (utf8_ignore_roundtrip s) = utf8_ignore_roundtrip s.
Proof.
  split; [|split].
  - split; [|apply utf8_ignore_roundtrip_encodable].
    intros Hs%filter_fixed. eapply Forall_impl; [exact Hs|].
    intros c Hc. by apply negb_true_iff.
  - apply utf8_ignore_roundtrip_is_encodable.
  - apply utf8_ignore_roundtrip_encodable, utf8_ignore_roundtrip_is_encodable.
Qed.

(** X20. A text that [is_css] flags has at least 21 tokens that are CSS
    elements: a text of 20 tokens or fewer is never flagged. *)
Theorem is_css_flagged_bounds (text0 : pystr) :
  is_css text0 = Ok true ->
  (21 <= css_element_count text0 <= total_token_count text0)%nat.
Proof.
  intros Hcss.
  assert (Hle : (css_element_count text0 <= total_token_count text0)%nat)
    by apply filter_length_le.
  destruct (Nat.eq_dec (total_token_count text0) 0) as [Hzero|Hpos].
  - exfalso. unfold is_css, total_token_count in *.
    rewrite count_tokens_length, Hzero in Hcss. discriminate.
  - rewrite (is_css_counts text0 Hpos) in Hcss. injection Hcss as Hcss.
    apply andb_prop in Hcss as [_ Hcount%Z.ltb_lt]. lia.
Qed.

Lemma is_css_flagged_bounds_witness :
  is_css css_noise_text = Ok true
  /\ (21 <= css_element_count css_noise_text
       <= total_token_count css_noise_text)%nat.
Proof.
  assert (H : is_css css_noise_text = Ok true) by (vm_compute; reflexivity).
  split; [exact H|]. exact (is_css_flagged_bounds css_noise_text H).
Defined.

Lemma truediv_double_agrees_witness :
  (if (70 =? 0)%Z then Raise ZeroDivisionError
   else Ok (Qgtb (double_truediv 21 70) double_0_3))
  = (ratio ← truediv 21 70; Ok (Qgtb ratio (3 # 10))).
Proof. apply (truediv_double_agrees 21 70); lia. Defined.

Lemma utf8_decode_encode_ignore_witness :
  utf8_decode (utf8_encode_ignore [0x41; 0xD800; 0x1F600]%N)
  = Ok [0x41; 0x1F600]%N.
Proof.
  apply (utf8_decode_encode_ignore [0x41; 0xD800; 0x1F600]%N).
  repeat constructor; lia.
Defined.

(** ** More on markup stripping *)

Section MoreMarkup.

Lemma strip_is_trimmed (s : pystr) : strip s <> [] -> trimmed (strip s).
Proof.
  intros Hne. split; [done|]. split.
  - pose proof (lstrip_head (strip s)) as Hhead.
    by rewrite strip_lstrip in Hhead.
  - unfold strip, rstrip. rewrite rev_involutive. apply lstrip_head.
Qed.

Lemma stripped_strings_trimmed (soup : list node) :
  Forall trimmed (stripped_strings soup).
Proof.
  unfold stripped_strings. generalize (flat_map strings soup). intros l.
  induction l as [|s l IH]; [constructor|]. simpl.
  case_bool_decide as Hs; simpl; [done|].
  constructor; [by apply strip_is_trimmed|done].
Qed.

Lemma join_trimmed_nil (pieces : list pystr) :
  Forall trimmed pieces -> join (str " ") pieces = [] -> pieces = [].
Proof.
  destruct 1 as [|t ts [Hne _] _]; [done|].
  destruct t; [done|]. by destruct ts.
Qed.

Lemma join_trimmed_head (pieces : list pystr) :
  Forall trimmed pieces -> head_not_space (join (str " ") pieces).
Proof.
  destruct 1 as [|t ts (Hne & Hhead & _) _]; [done|].
  destruct t as [|c t]; [done|]. by destruct ts.
Qed.

Lemma join_trimmed_last (pieces : list pystr) :
  Forall trimmed pieces -> head_not_space (rev (join (str " ") pieces)).
Proof.
  induction 1 as [|t ts (Hne & _ & Hlast) Hts IH]; [done|].
  destruct ts as [|t' ts]; [done|].
  change (join (str " ") (t :: t' :: ts))
    with (t ++ str " " ++ join (str " ") (t' :: ts)).
  rewrite !rev_app_distr.
  destruct (rev (join (str " ") (t' :: ts))) as [|c r] eqn:Hr; [|done].
  apply (f_equal (@rev N)) in Hr. rewrite rev_involutive in Hr.
  apply join_trimmed_nil in Hr; done.
Qed.

Lemma node_nested_ind (P : node -> Prop) :
  (forall name contents, Forall P contents -> P (Tag name contents)) ->
  (forall n, match n with Tag _ _ => False | _ => True end -> P n) ->
  forall n, P n.
Proof.
  intros HTag Hleaf. fix IH 1. intros [name contents| | | | | |];
    try (by apply Hleaf).
  apply HTag. revert contents. fix IHcontents 1.
  intros [|c contents]; constructor; [apply IH|apply IHcontents].
Qed.

Lemma has_tag_decompose (names : list pystr) (n : node) :
  Forall (fun n' => has_tag names n' = false) (decompose names n)
  /\ (has_tag names n = false -> decompose names n = [n]).
Proof.
  induction n as [name contents IH|n Hn] using node_nested_ind;
    [|destruct n; try done; by repeat constructor].
  simpl. case_bool_decide as Hname; simpl; [split; [constructor|done]|].
  split.
  - constructor; [|constructor]. simpl.
    rewrite bool_decide_eq_false_2 by done. simpl.
    apply not_true_iff_false. rewrite existsb_exists.
    intros (n' & (c & Hc & Hn')%in_flat_map & Htag).
    rewrite List.Forall_forall in IH. destruct (IH c Hc) as [Hall _].
    rewrite List.Forall_forall in Hall. by rewrite (Hall n' Hn') in Htag.
  - intros Hcontents. do 2 f_equal.
    induction contents as [|c contents IHc]; [done|].
    simpl in Hcontents. apply orb_false_elim in Hcontents as [Hc Hrest].
    inversion IH as [|? ? [_ Hfix] IH']; subst. simpl.
    rewrite (Hfix Hc). simpl. f_equal. by apply IHc.
Qed.

Variable BeautifulSoup : pystr -> list node.

(** X22. Whatever the parser returns, the text that [remove_tags] gives has
    no white space at either end, and it is empty only when no string of the
    parse outside [style] and [script] holds anything but white space. *)
Theorem remove_tags_trimmed (html : pystr) :
  strip (remove_tags BeautifulSoup html) = remove_tags BeautifulSoup html
  /\ (remove_tags BeautifulSoup html = [] <->
      stripped_strings
        (flat_map (decompose [str "style"; str "script"]) (BeautifulSoup html))
      = []).
Proof.
  unfold remove_tags.
  pose proof (stripped_strings_trimmed
    (flat_map (decompose [str "style"; str "script"]) (BeautifulSoup html)))
    as Hpieces.
  split.
  - apply strip_fixed; [by apply join_trimmed_head|by apply join_trimmed_last].
  - split; [by apply join_trimmed_nil|]. by intros ->.
Qed.

(** X23. The loop over [soup(['style', 'script'])] leaves no [style] and no
    [script] tag in the tree, at any depth, and leaves a tree without such
    tags as it is; so a second pass changes nothing. *)
Theorem decompose_removes_all (soup : list node) :
  let names := [str "style"; str "script"] in
  Forall (fun n => has_tag names n = false) (flat_map (decompose names) soup)
  /\ (Forall (fun n => has_tag names n = false) soup ->
      flat_map (decompose names) soup = soup)
  /\ flat_map (decompose names) (flat_map (decompose names) soup)
     = flat_map (decompose names) soup.
Proof.
  intros names.
  assert (Hclean : forall l, Forall (fun n => has_tag names n = false)
                               (flat_map (decompose names) l)).
  { intros l. induction l as [|n l IH]; [constructor|].
    simpl. apply Forall_app. split; [apply has_tag_decompose|done]. }
  assert (Hfixed : forall l, Forall (fun n => has_tag names n = false) l ->
                             flat_map (decompose names) l = l).
  { intros l. induction 1 as [|n l Hn _ IH]; [done|].
    simpl. rewrite (proj2 (has_tag_decompose names n) Hn), IH. done. }
  split; [apply Hclean|]. split; [apply Hfixed|]. apply Hfixed, Hclean.
Qed.

End MoreMarkup.

(** ** The properties above on the scenarios *)

Lemma no_unicode_issue_checked_witness :
  exists m',
    CleanParagraphsFn_counting.process HtmlParser.BeautifulSoup __init__
      scenario_A_input
    = Ok (m', [scenario_A_document])
    /\ m' _unicode_issue_after_clean = __init__ _unicode_issue_after_clean
    /\ forall q, In q (doc_paragraphs scenario_A_document) ->
         text q <> [] /\ is_html (text q) = false
         /\ is_css (text q) = Ok false.
Proof.
  assert (Hrun : observe _unicode_issue_after_clean
                   (CleanParagraphsFn_counting.process
                      HtmlParser.BeautifulSoup __init__ scenario_A_input)
                 = Some (0%nat, [scenario_A_document]))
    by (vm_compute; reflexivity).
  destruct (CleanParagraphsFn_counting.process HtmlParser.BeautifulSoup
              __init__ scenario_A_input) as [[m' documents]|e] eqn:Hr;
    [|discriminate].
  simpl in Hrun. injection Hrun as Hm Hdocuments. subst documents.
  exists m'. split; [reflexivity|]. split; [exact Hm|].
  exact (no_unicode_issue_checked HtmlParser.BeautifulSoup __init__ m'
           scenario_A_input scenario_A_document Hr Hm).
Defined.

Lemma flattened_text_trimmed_witness :
  ConvertSourcesFn.chain_sources _SOURCES scenario_A_record
  = Ok scenario_A_paragraphs
  /\ In plain_title scenario_A_paragraphs
  /\ text plain_title <> []
  /\ strip (text plain_title) = text plain_title
  /\ head_not_space (text plain_title)
  /\ head_not_space (rev (text plain_title)).
Proof.
  assert (Hrun : ConvertSourcesFn.chain_sources _SOURCES scenario_A_record
                 = Ok scenario_A_paragraphs) by (vm_compute; reflexivity).
  assert (Hin : In plain_title scenario_A_paragraphs) by (left; reflexivity).
  split; [exact Hrun|]. split; [exact Hin|].
  exact (flattened_text_trimmed scenario_A_record scenario_A_paragraphs
           plain_title Hrun Hin).
Defined.

Lemma flattened_in_source_order_witness :
  ConvertSourcesFn.chain_sources _SOURCES scenario_A_record
  = Ok scenario_A_paragraphs
  /\ exists groups,
       scenario_A_paragraphs = concat groups
       /\ Forall2 (fun field group => Forall (fun p => source p = field) group)
            _SOURCES groups.
Proof.
  assert (Hrun : ConvertSourcesFn.chain_sources _SOURCES scenario_A_record
                 = Ok scenario_A_paragraphs) by (vm_compute; reflexivity).
  split; [exact Hrun|].
  exact (flattened_in_source_order scenario_A_record scenario_A_paragraphs Hrun).
Defined.

Lemma convert_output_keys_witness :
  ConvertSourcesFn.process (scenario_A_record, scenario_A_label)
  = Ok [scenario_A_flattened]
  /\ dom scenario_A_flattened = {[ str "paragraphs" ]} ∪ dom scenario_A_label
  /\ (forall key, key <> str "paragraphs" ->
        scenario_A_flattened !! key = scenario_A_label !! key)
  /\ (scenario_A_label !! str "paragraphs" = None ->
      exists paragraphs,
        ConvertSourcesFn.chain_sources _SOURCES scenario_A_record
        = Ok paragraphs
        /\ scenario_A_flattened !! str "paragraphs"
           = Some (JList (List.map Paragraph_json paragraphs))).
Proof.
  assert (Hrun : ConvertSourcesFn.process (scenario_A_record, scenario_A_label)
                 = Ok [scenario_A_flattened]) by (vm_compute; reflexivity).
  split; [exact Hrun|].
  exact (convert_output_keys scenario_A_record scenario_A_label
           scenario_A_flattened Hrun).
Defined.

Lemma convert_output_readable_witness :
  ConvertSourcesFn.process (scenario_A_record, scenario_A_label)
  = Ok [scenario_A_flattened]
  /\ exists paragraphs,
       ConvertSourcesFn.chain_sources _SOURCES scenario_A_record
       = Ok paragraphs
       /\ Document_of_dict scenario_A_flattened
          = Some {| doc_id := str "X1"; doc_category := JStr (str "c");
                    doc_paragraphs := paragraphs;
                    doc_attributes := JDict ∅ |}.
Proof.
  assert (Hrun : ConvertSourcesFn.process (scenario_A_record, scenario_A_label)
                 = Ok [scenario_A_flattened]) by (vm_compute; reflexivity).
  split; [exact Hrun|].
  apply (convert_output_readable scenario_A_record scenario_A_label
           scenario_A_flattened (str "X1") (JStr (str "c")) (JDict ∅) Hrun);
    vm_compute; reflexivity.
Defined.

Lemma malformed_titles_drop_document_witness :
  (forall p, In p (doc_paragraphs scenario_B_document) ->
     source p = str "title" -> contains (str "getTime") (text p) = true)
  /\ CleanParagraphsFn.process HtmlParser.BeautifulSoup scenario_B_document
     = Ok [].
Proof.
  assert (Htitles : forall p, In p (doc_paragraphs scenario_B_document) ->
            source p = str "title" ->
            contains (str "getTime") (text p) = true).
  { intros p [<-|[<-|[]]] Hsource; [vm_compute; reflexivity|].
    vm_compute in Hsource. discriminate. }
  split; [exact Htitles|].
  exact (malformed_titles_drop_document HtmlParser.BeautifulSoup
           scenario_B_document Htitles).
Defined.

Lemma dedupe_distinct_keeps_all_witness :
  NoDup (doc_id <$> [scenario_A_document; scenario_B_document])
  /\ exists out,
       DedupeASIN doc_id [scenario_A_document; scenario_B_document] = Ok out
       /\ out ≡ₚ [scenario_A_document; scenario_B_document].
Proof.
  assert (Hdistinct :
            NoDup (doc_id <$> [scenario_A_document; scenario_B_document])).
  { apply (bool_decide_unpack _). vm_compute. exact I. }
  split; [exact Hdistinct|].
  exact (dedupe_distinct_keeps_all
           [scenario_A_document; scenario_B_document] Hdistinct).
Defined.

Lemma dedupe_idempotent_witness :
  DedupeASIN doc_id
    [scenario_A_document; scenario_B_document; scenario_A_input]
  = Ok [scenario_B_document; scenario_A_document]
  /\ exists out',
       DedupeASIN doc_id [scenario_B_document; scenario_A_document] = Ok out'
       /\ out' ≡ₚ [scenario_B_document; scenario_A_document].
Proof.
  assert (Hrun : DedupeASIN doc_id
                   [scenario_A_document; scenario_B_document; scenario_A_input]
                 = Ok [scenario_B_document; scenario_A_document])
    by (vm_compute; reflexivity).
  split; [exact Hrun|].
  exact (dedupe_idempotent
           [scenario_A_document; scenario_B_document; scenario_A_input]
           [scenario_B_document; scenario_A_document] Hrun).
Defined.
(** ** From a raw record to the emitted Document *)

Section EndToEnd.

Variable BeautifulSoup : pystr -> list node.

Lemma Document_of_dict_Some (out : JsonObject) (d : Document) :
  Document_of_dict out = Some d ->
  out !! str "id" = Some (JStr (doc_id d))
  /\ out !! str "category" = Some (doc_category d)
  /\ out !! str "attributes" = Some (doc_attributes d)
  /\ exists ps, out !! str "paragraphs" = Some (JList ps)
                /\ mapM Paragraph_of_json ps = Some (doc_paragraphs d).
Proof.
  unfold Document_of_dict.
  destruct (out !! str "id") as [[| | | |i| |]|]; try discriminate.
  destruct (out !! str "category") as [c|]; try discriminate.
  destruct (out !! str "paragraphs") as [[| | | | |ps|]|]; try discriminate.
  destruct (out !! str "attributes") as [a|]; try discriminate.
  destruct (mapM Paragraph_of_json ps) as [paragraphs|] eqn:Hps;
    try discriminate.
  simpl. intros [= <-]. simpl. repeat split. by exists ps.
Qed.

Lemma sources_of_flattened (json_example : JsonObject)
    (paragraphs : list Paragraph) (field : pystr) :
  ConvertSourcesFn.chain_sources _SOURCES json_example = Ok paragraphs ->
  field ∈ source <$> paragraphs ->
  In field _SOURCES
  /\ exists s, In (JStr s) (candidates json_example field) /\ strip s <> [].
Proof.
  intros Hchain%chain_sources_Ok (p & -> & Hp)%list_elem_of_fmap.
  subst paragraphs. apply list_elem_of_In, in_flat_map in Hp.
  destruct Hp as (field & Hfield & Hp).
  apply spec_paragraphs_In in Hp as (-> & Hne & s & Hs & Htext).
  split; [done|]. exists s. split; [done|]. by rewrite <- Htext.
Qed.

(** X24. The stages in a row, on one raw record: when the join, the
    flattening and the cleaner each yield, the emitted Document has the
    identifier, category and attributes of the label that the index holds for
    the record's [asin], and it has a title paragraph; when the label has no
    [paragraphs] field, every emitted paragraph has one of the five sources,
    and the raw record holds a title text that is not blank. *)
Theorem record_to_document (record : JsonObject)
    (labels_by_id : gmap pystr JsonObject)
    (element : JsonObject * JsonObject) (out : JsonObject) (d d' : Document) :
  JoinWithLabelsFn.process record labels_by_id = Ok [element] ->
  ConvertSourcesFn.process element = Ok [out] ->
  Document_of_dict out = Some d ->
  CleanParagraphsFn.process BeautifulSoup d = Ok [d'] ->
  exists asin labels,
    element = (record, labels)
    /\ dict_get record _ASIN (JStr (str "")) = JStr asin
    /\ labels_by_id !! asin = Some labels
    /\ labels !! str "id" = Some (JStr (doc_id d'))
    /\ labels !! str "category" = Some (doc_category d')
    /\ labels !! str "attributes" = Some (doc_attributes d')
    /\ (exists q, In q (doc_paragraphs d') /\ source q = _TITLE)
    /\ (labels !! str "paragraphs" = None ->
        (forall q, In q (doc_paragraphs d') -> In (source q) _SOURCES)
        /\ exists s, In (JStr s) (candidates record _TITLE)
                     /\ strip s <> []).
Proof.
  intros Hjoin Hconv Hdoc Hclean.
  unfold JoinWithLabelsFn.process in Hjoin.
  destruct (dict_get record _ASIN (JStr (str ""))) as [| | | |asin| |] eqn:Hasin;
    try discriminate.
  destruct (labels_by_id !! asin) as [labels|] eqn:Hlabels; [|discriminate].
  case_bool_decide; [discriminate|]. injection Hjoin as <-.
  exists asin, labels. do 3 (split; [done|]).
  unfold ConvertSourcesFn.process, deepcopy, dict_update in Hconv.
  destruct (ConvertSourcesFn.chain_sources _SOURCES record)
    as [paragraphs|] eqn:Hchain; [|discriminate].
  simpl in Hconv. injection Hconv as <-.
  apply Document_of_dict_Some in Hdoc as (Hi & Hc & Ha & ps & Hps & Hread).
  assert (Hlabel : forall key v, key <> str "paragraphs" ->
            (labels ∪ {[ str "paragraphs" :=
                           JList (List.map Paragraph_json paragraphs) ]})
              !! key = Some v -> labels !! key = Some v).
  { intros key v Hkey [Hl|[_ Hr]]%lookup_union_Some_raw; [done|].
    by rewrite lookup_singleton_ne in Hr. }
  apply Hlabel in Hi; [|by vm_compute].
  apply Hlabel in Hc; [|by vm_compute].
  apply Hlabel in Ha; [|by vm_compute].
  pose proof (process_emits BeautifulSoup d d' Hclean) as [Hsurvivors Htitle].
  assert (Hsame : doc_id d' = doc_id d /\ doc_category d' = doc_category d
                  /\ doc_attributes d' = doc_attributes d).
  { unfold CleanParagraphsFn.process in Hclean. rewrite Hsurvivors in Hclean.
    simpl in Hclean. rewrite Htitle in Hclean. by injection Hclean as <-. }
  destruct Hsame as (-> & -> & ->). do 3 (split; [done|]).
  apply has_title_spec in Htitle as (q & Hq & Hsource).
  split; [by exists q|]. intros Hnone.
  rewrite lookup_union_r, lookup_singleton_eq in Hps by done.
  injection Hps as <-. rewrite mapM_Paragraph_of_json in Hread.
  injection Hread as Hread.
  assert (Hfield : forall q', In q' (doc_paragraphs d') ->
                     source q' ∈ source <$> paragraphs).
  { intros q' Hq'. rewrite Hread.
    eapply elem_of_sublist;
      [|apply (clean_paragraphs_sources BeautifulSoup _ _ Hsurvivors)].
    by apply list_elem_of_fmap_2, list_elem_of_In. }
  split.
  - intros q' Hq'. by apply (sources_of_flattened record paragraphs), Hfield.
  - change _TITLE with (str "title"). rewrite <- Hsource.
    by apply (sources_of_flattened record paragraphs), Hfield.
Qed.

End EndToEnd.

Lemma record_to_document_witness :
  JoinWithLabelsFn.process scenario_A_record scenario_A_index
  = Ok [(scenario_A_record, scenario_A_label)]
  /\ CleanParagraphsFn.process HtmlParser.BeautifulSoup scenario_A_input
     = Ok [scenario_A_document]
  /\ exists asin labels,
       (scenario_A_record, scenario_A_label) = (scenario_A_record, labels)
       /\ dict_get scenario_A_record _ASIN (JStr (str "")) = JStr asin
       /\ scenario_A_index !! asin = Some labels
       /\ labels !! str "id" = Some (JStr (doc_id scenario_A_document))
       /\ labels !! str "category"
          = Some (doc_category scenario_A_document)
       /\ labels !! str "attributes"
          = Some (doc_attributes scenario_A_document)
       /\ (exists q, In q (doc_paragraphs scenario_A_document)
                     /\ source q = _TITLE)
       /\ (labels !! str "paragraphs" = None ->
           (forall q, In q (doc_paragraphs scenario_A_document) ->
              In (source q) _SOURCES)
           /\ exists s, In (JStr s) (candidates scenario_A_record _TITLE)
                        /\ strip s <> []).
Proof.
  assert (Hjoin : JoinWithLabelsFn.process scenario_A_record scenario_A_index
                  = Ok [(scenario_A_record, scenario_A_label)])
    by (vm_compute; reflexivity).
  assert (Hconv : ConvertSourcesFn.process
                    (scenario_A_record, scenario_A_label)
                  = Ok [scenario_A_flattened]) by (vm_compute; reflexivity).
  assert (Hdoc : Document_of_dict scenario_A_flattened
                 = Some scenario_A_input) by (vm_compute; reflexivity).
  assert (Hclean : CleanParagraphsFn.process HtmlParser.BeautifulSoup
                     scenario_A_input
                   = Ok [scenario_A_document]) by (vm_compute; reflexivity).
  split; [exact Hjoin|]. split; [exact Hclean|].
  exact (record_to_document HtmlParser.BeautifulSoup scenario_A_record
           scenario_A_index (scenario_A_record, scenario_A_label)
           scenario_A_flattened scenario_A_input scenario_A_document
           Hjoin Hconv Hdoc Hclean).
Defined.
